(** * UpscaleImg node: a shallow embedding of [UpscaleImg.execute]

    The node reads its parameters and the binary attachment of every input
    item from the n8n execution context, uploads the image as a multipart
    form, downloads the result from the signed URL of the response and
    pushes one output entry per item.  Everything the source obtains from
    [this] (the [IExecuteFunctions] context) is a field of the record
    [IExecuteFunctions] below; the context is a deterministic oracle over an
    abstract world [W], and every call that may throw is recorded, with its
    arguments and its outcome, in the transcript of the run. *)

From Stdlib Require Import ZArith String List Ascii DecimalString DecimalZ Eqdep_dec.
From stdpp Require Import base gmap strings list sorting.

Open Scope string_scope.
Open Scope list_scope.
Open Scope Z_scope.
Open Scope nat_scope.

(** ** Values *)

Definition Buffer := list Byte.byte.

(** [INode], as far as the source uses it: the argument of [getNode()]. *)
Record INode := { node_name : string }.

(** Thrown values, as far as the source and n8n-workflow tell them apart.
    [Error m] is any thrown value that is not a [NodeOperationError], with
    its [message]; [NodeOperationError node error itemIndex m] is a
    [NodeOperationError] object: its node, the error it was built from, its
    [context.itemIndex] (if it has one) and its own [message]. *)
Inductive JsError :=
| Error (msg : string)
| NodeOperationError (node : INode) (error : JsError) (itemIndex : option nat)
    (msg : string).

(** [error.message]. *)
Definition message (e : JsError) : string :=
  match e with
  | Error m => m
  | NodeOperationError _ _ _ m => m
  end.

(** [error.context.itemIndex], where there is one. *)
Definition context_itemIndex (e : JsError) : option nat :=
  match e with
  | Error _ => None
  | NodeOperationError _ _ i _ => i
  end.

(** [error instanceof NodeOperationError]. *)
Definition isNodeOperationError (e : JsError) : bool :=
  match e with
  | Error _ => false
  | NodeOperationError _ _ _ _ => true
  end.

Inductive Outcome (A : Type) :=
| Returned (a : A)
| Thrown (e : JsError).
Arguments Returned {A} a.
Arguments Thrown {A} e.

(** JSON data ([IDataObject] values); an object keeps its keys in the order
    of the literal that built it. *)
#[warnings="-register-all"]
Inductive Json :=
| JNull
| JBool (b : bool)
| JNumber (n : Z)
| JString (s : string)
| JObject (fields : list (string * Json)).

Fixpoint assoc (k : string) (fields : list (string * Json)) : option Json :=
  match fields with
  | [] => None
  | (k', v) :: rest => if String.eqb k k' then Some v else assoc k rest
  end.

(** [o[k]] on a JSON value: [None] stands for [undefined]. *)
Definition prop (k : string) (o : Json) : option Json :=
  match o with
  | JObject fields => assoc k fields
  | _ => None
  end.

Definition keys (o : Json) : list string :=
  match o with
  | JObject fields => map fst fields
  | _ => []
  end.

(** [IBinaryData]: [fileName] and [mimeType] may be [undefined] ([None]). *)
Record IBinaryData := {
  bin_data : string;
  bin_mimeType : option string;
  bin_fileName : option string
}.

Record IPairedItemData := { item : nat }.

Record INodeExecutionData := {
  json : Json;
  binary : option (gmap string IBinaryData);
  pairedItem : option IPairedItemData
}.

(** The [options] collection, at the types of the source's casts;
    [None] is [undefined]. *)
Record Options := {
  outputFormat : option string;
  removeMetadata : option bool;
  outputBinaryPropertyName : option string
}.

(** Numbers, as far as [String()] tells them apart.  [SafeInteger z] is the
    integer [z], of magnitude at most [Number.MAX_SAFE_INTEGER] (2^53 - 1):
    these print as their decimal numeral.  [OtherNumber text] is any other
    number (fractional, larger, [NaN], infinite), given by the text
    [String()] prints for it, such as [1.5] or [1e+21]. *)
Inductive JsNumber :=
| SafeInteger (z : Z) (safe : Is_true (Z.abs z <=? 9007199254740991)%Z)
| OtherNumber (text : string).

(** The integer a number is, when it is a safe integer. *)
Definition integer (n : JsNumber) : option Z :=
  match n with
  | SafeInteger z _ => Some z
  | OtherNumber _ => None
  end.

(** The parameters [execute] reads with [getNodeParameter(name, i) as T]. *)
Inductive ParamName :=
| p_binaryPropertyName
| p_resizeMode
| p_scale
| p_customWidth
| p_customHeight
| p_objectFit
| p_options.

Definition paramName (p : ParamName) : string :=
  match p with
  | p_binaryPropertyName => "binaryPropertyName"
  | p_resizeMode => "resizeMode"
  | p_scale => "scale"
  | p_customWidth => "customWidth"
  | p_customHeight => "customHeight"
  | p_objectFit => "objectFit"
  | p_options => "options"
  end.

(** The type [T] of the cast [as T] at each read. *)
Definition ParamType (p : ParamName) : Type :=
  match p with
  | p_binaryPropertyName | p_resizeMode | p_objectFit => string
  | p_scale | p_customWidth | p_customHeight => JsNumber
  | p_options => Options
  end.

#[global] Instance ParamName_eq_dec : EqDecision ParamName.
Proof. solve_decision. Defined.

Record ICredentialDataDecryptedObject := { apiKey : string }.

(** ** The multipart form

    A form is the sequence of the [form.append] calls made on it, each with
    its arguments as the source gives them: [FileValue buffer filename
    contentType] is [form.append(name, buffer, {filename, contentType})] and
    [TextValue value] is [form.append(name, value)].  How form-data writes
    the parts out of these (it names a file part after the base name of
    [filename], for one) is not part of the model. *)

Inductive FormValue :=
| FileValue (buffer : Buffer) (filename : string) (contentType : string)
| TextValue (value : string).

Record FormField := { field_name : string; field_value : FormValue }.

Definition FormData := list FormField.

(** [form.append(name, ...)]: one more call on the form. *)
Definition append (form : FormData) (name : string) (v : FormValue) : FormData :=
  form ++ [{| field_name := name; field_value := v |}].

(** The values appended under [name], in the order of the form. *)
Fixpoint fieldValues (name : string) (form : FormData) : list FormValue :=
  match form with
  | [] => []
  | f :: rest =>
      if String.eqb (field_name f) name
      then field_value f :: fieldValues name rest
      else fieldValues name rest
  end.

Definition hasField (name : string) (form : FormData) : bool :=
  existsb (fun f => String.eqb (field_name f) name) form.

(** ** HTTP *)

Record IHttpRequestOptions := {
  method : string;
  url : string;
  headers : list (string * string);
  body : option FormData;
  encoding : option string
}.

Record ResultInfo := {
  res_size : Z;
  res_width : Z;
  res_height : Z;
  res_mimeType : string;
  res_fileExt : string;
  res_url : string
}.

(** The upload response: [original] is only passed on, [result] is read
    field by field. *)
Record UpscaleResponse := {
  original : Json;
  result : ResultInfo
}.

(** The two casts of [httpRequest]'s result in the source. *)
Inductive ResponseShape := AsUpscaleResponse | AsArrayBuffer.

Definition ResponseData (k : ResponseShape) : Type :=
  match k with
  | AsUpscaleResponse => UpscaleResponse
  | AsArrayBuffer => Buffer
  end.

(** A value [httpRequest] returned, seen through what the source does with
    it after the unchecked cast.  [WellShaped a]: the accesses succeed and
    find [a] (the fields of the response; the bytes [Buffer.from] makes of
    the download).  [IllShaped m]: the first access throws a [TypeError]
    with message [m]: [response.result.url] on a response without [result]
    (line 248), [Buffer.from] on a value that is no buffer (line 253). *)
Inductive Cast (A : Type) :=
| WellShaped (a : A)
| IllShaped (msg : string).
Arguments WellShaped {A} a.
Arguments IllShaped {A} msg.

Definition ResponseType (k : ResponseShape) : Type := Cast (ResponseData k).

#[global] Instance ResponseShape_eq_dec : EqDecision ResponseShape.
Proof. solve_decision. Defined.

(** ** The execution context *)

Record IExecuteFunctions (W : Type) := {
  getInputData : W -> list INodeExecutionData;
  getNode : W -> INode;
  continueOnFail : W -> bool;
  getNodeParameter : forall p : ParamName, nat -> W -> Outcome (ParamType p) * W;
  getCredentials : string -> W -> Outcome ICredentialDataDecryptedObject * W;
  assertBinaryData : nat -> string -> W -> Outcome IBinaryData * W;
  getBinaryDataBuffer : nat -> string -> W -> Outcome Buffer * W;
  httpRequest : forall k : ResponseShape,
      IHttpRequestOptions -> W -> Outcome (ResponseType k) * W;
  prepareBinaryData : Buffer -> string -> string -> W -> Outcome IBinaryData * W
}.
Arguments getInputData {W} _ _.
Arguments getNode {W} _ _.
Arguments continueOnFail {W} _ _.
Arguments getNodeParameter {W} _ _ _ _.
Arguments getCredentials {W} _ _ _.
Arguments assertBinaryData {W} _ _ _ _.
Arguments getBinaryDataBuffer {W} _ _ _ _.
Arguments httpRequest {W} _ _ _ _.
Arguments prepareBinaryData {W} _ _ _ _ _.

(** One entry of the transcript: a call of the context, its arguments and
    what it returned or threw. *)
Inductive HostCall :=
| call_getNodeParameter (p : ParamName) (itemIndex : nat) (r : Outcome (ParamType p))
| call_getCredentials (name : string) (r : Outcome ICredentialDataDecryptedObject)
| call_assertBinaryData (itemIndex : nat) (propertyName : string) (r : Outcome IBinaryData)
| call_getBinaryDataBuffer (itemIndex : nat) (propertyName : string) (r : Outcome Buffer)
| call_httpRequest (k : ResponseShape) (requestOptions : IHttpRequestOptions)
    (r : Outcome (ResponseType k))
| call_prepareBinaryData (buffer : Buffer) (filePath : string) (mimeType : string)
    (r : Outcome IBinaryData).

(** ** The monad of the run: world passing, exceptions, transcript *)

Definition M (W A : Type) : Type := W -> Outcome A * W * list HostCall.

Definition ret {W A} (a : A) : M W A := fun w => (Returned a, w, []).

Definition throw {W A} (e : JsError) : M W A := fun w => (Thrown e, w, []).

Definition bind {W A B} (m : M W A) (f : A -> M W B) : M W B :=
  fun w =>
    match m w with
    | (Returned a, w1, c1) =>
        match f a w1 with
        | (r, w2, c2) => (r, w2, c1 ++ c2)
        end
    | (Thrown e, w1, c1) => (Thrown e, w1, c1)
    end.

(** [try { m } catch (error) { ... }]: the outcome of [m] as a value. *)
Definition try {W A} (m : M W A) : M W (Outcome A) :=
  fun w => match m w with (r, w1, c1) => (Returned r, w1, c1) end.

(** A call of the context: run it on the world and record it. *)
Definition call {W A} (f : W -> Outcome A * W) (entry : Outcome A -> HostCall) : M W A :=
  fun w => match f w with (r, w1) => (r, w1, [entry r]) end.

(** A getter of the context: reads the world, cannot throw. *)
Definition get {W A} (f : W -> A) : M W A := fun w => (Returned (f w), w, []).

(** The first access to a value [httpRequest] returned: it finds the data,
    or throws the [TypeError]. *)
Definition access {W A} (v : Cast A) : M W A :=
  match v with
  | WellShaped a => ret a
  | IllShaped m => throw (Error m)
  end.

Declare Scope run_scope.
Delimit Scope run_scope with run.
Notation "'let*' x := m 'in' k" := (bind m (fun x => k))
  (at level 10, x name, m at level 100, k at level 200) : run_scope.

(** ** JavaScript operators used by [execute] *)

(** [s || d] on an optional string: [undefined] and the empty string are
    falsy. *)
Definition orElse (s : option string) (d : string) : string :=
  match s with
  | Some "" => d
  | Some v => v
  | None => d
  end.

(** [if (s)] on an optional string: the truthy value, if there is one. *)
Definition truthy (s : option string) : option string :=
  match s with
  | Some "" => None
  | Some v => Some v
  | None => None
  end.

(** [String(n)]: the decimal numeral of a safe integer, with a leading
    minus sign when negative; the text of any other number. *)
Definition String_ (n : JsNumber) : string :=
  match n with
  | SafeInteger z _ => NilZero.string_of_int (Z.to_int z)
  | OtherNumber text => text
  end.

(** [/\.[^.]+$/] at the start of [s]: a dot, then one or more characters
    other than a dot, up to the end of the string. *)
Fixpoint noDot (s : string) : bool :=
  match s with
  | "" => true
  | String c rest => if Ascii.eqb c "." then false else noDot rest
  end.

Definition extensionAt (s : string) : bool :=
  match s with
  | String c (String _ _ as rest) => Ascii.eqb c "." && noDot rest
  | _ => false
  end.

(** [fileName.replace(/\.[^.]+$/, '')]: the leftmost match, which reaches
    the end of the string, is replaced by the empty string; without a match
    the string is returned as it is. *)
Fixpoint baseName (fileName : string) : string :=
  match fileName with
  | "" => ""
  | String c rest =>
      if extensionAt fileName then "" else String c (baseName rest)
  end.

(** ** [execute] *)

(** [execute] is given the context, [this], and what it imports from
    n8n-workflow: the constructor of [NodeOperationError], used as
    [new NodeOperationError(node, error, {itemIndex})].  The constructor is
    kept abstract; [NWorkflow.NodeOperationError_new] below is the one of
    the library. *)

Section Execute.
Context {W : Type} (this : IExecuteFunctions W).
Context (NodeOperationError_new : INode -> JsError -> nat -> JsError).

Local Open Scope run_scope.

Definition this_getNodeParameter (p : ParamName) (i : nat) : M W (ParamType p) :=
  call (getNodeParameter this p i) (call_getNodeParameter p i).

Definition this_getCredentials (name : string) : M W ICredentialDataDecryptedObject :=
  call (getCredentials this name) (call_getCredentials name).

Definition this_assertBinaryData (i : nat) (propertyName : string) : M W IBinaryData :=
  call (assertBinaryData this i propertyName) (call_assertBinaryData i propertyName).

Definition this_getBinaryDataBuffer (i : nat) (propertyName : string) : M W Buffer :=
  call (getBinaryDataBuffer this i propertyName) (call_getBinaryDataBuffer i propertyName).

Definition this_httpRequest (k : ResponseShape) (requestOptions : IHttpRequestOptions)
  : M W (ResponseType k) :=
  call (httpRequest this k requestOptions) (call_httpRequest k requestOptions).

Definition this_prepareBinaryData (buffer : Buffer) (filePath mimeType : string)
  : M W IBinaryData :=
  call (prepareBinaryData this buffer filePath mimeType)
       (call_prepareBinaryData buffer filePath mimeType).

(** Lines 199-209: the fields of the resize mode. *)
Definition appendResize (i : nat) (resizeMode : string) (form : FormData) : M W FormData :=
  if String.eqb resizeMode "scale" then
    let* scale := this_getNodeParameter p_scale i in
    ret (append form "scale" (TextValue (String_ scale)))
  else
    let* customWidth := this_getNodeParameter p_customWidth i in
    let* customHeight := this_getNodeParameter p_customHeight i in
    let* objectFit := this_getNodeParameter p_objectFit i in
    let form := append form "customWidth" (TextValue (String_ customWidth)) in
    let form := append form "customHeight" (TextValue (String_ customHeight)) in
    ret (append form "objectFit" (TextValue objectFit)).

(** Lines 211-216: the optional fields. *)
Definition appendOptions (options : Options) (form : FormData) : FormData :=
  let form :=
    match truthy (outputFormat options) with
    | Some fmt => append form "outputFormat" (TextValue fmt)
    | None => form
    end in
  match removeMetadata options with
  | Some b => append form "removeMetadata" (TextValue (if b then "1" else "0"))
  | None => form
  end.

(** Lines 183-281: the body of the [try] block for item [i]. *)
Definition processItem (i : nat) : M W INodeExecutionData :=
  let* binaryPropertyName := this_getNodeParameter p_binaryPropertyName i in
  let* resizeMode := this_getNodeParameter p_resizeMode i in
  let* options := this_getNodeParameter p_options i in
  let* binaryData := this_assertBinaryData i binaryPropertyName in
  let* binaryBuffer := this_getBinaryDataBuffer i binaryPropertyName in
  let fileName := orElse (bin_fileName binaryData) "image.png" in
  let mimeType := orElse (bin_mimeType binaryData) "image/png" in
  let* credentials := this_getCredentials "upscaleImgApi" in
  let form := append [] "image" (FileValue binaryBuffer fileName mimeType) in
  let* form := appendResize i resizeMode form in
  let form := appendOptions options form in
  let requestOptions :=
    {| method := "POST";
       url := "https://upscaleimg.app/api/v1/upscale";
       headers := [("Authorization", "Bearer " +:+ apiKey credentials)];
       body := Some form;
       encoding := None |} in
  let* response := this_httpRequest AsUpscaleResponse requestOptions in
  let* response := access response in
  let downloadOptions :=
    {| method := "GET";
       url := res_url (result response);
       headers := [];
       body := None;
       encoding := Some "arraybuffer" |} in
  let* imageArrayBuffer := this_httpRequest AsArrayBuffer downloadOptions in
  let* imageBuffer := access imageArrayBuffer in
  let outputBinaryPropertyName := orElse (outputBinaryPropertyName options) "data" in
  let outputFileName :=
    baseName fileName +:+ "_upscaled." +:+ res_fileExt (result response) in
  let* binaryOutput :=
    this_prepareBinaryData imageBuffer outputFileName (res_mimeType (result response)) in
  ret {| json :=
           JObject
             [("original", original response);
              ("result",
               JObject
                 [("size", JNumber (res_size (result response)));
                  ("width", JNumber (res_width (result response)));
                  ("height", JNumber (res_height (result response)));
                  ("mimeType", JString (res_mimeType (result response)));
                  ("fileExt", JString (res_fileExt (result response)))])];
         binary := Some {[ outputBinaryPropertyName := binaryOutput ]};
         pairedItem := Some {| item := i |} |}.

(** Lines 284-289: the entry pushed for a failed item. *)
Definition errorEntry (error : JsError) (i : nat) : INodeExecutionData :=
  {| json := JObject [("error", JString (message error))];
     binary := None;
     pairedItem := Some {| item := i |} |}.

(** Lines 181-296: the loop, with [remaining = items.length - i]. *)
Fixpoint loop (remaining i : nat) (returnData : list INodeExecutionData)
  : M W (list INodeExecutionData) :=
  match remaining with
  | O => ret returnData
  | S remaining' =>
      let* r := try (processItem i) in
      match r with
      | Returned entry => loop remaining' (S i) (returnData ++ [entry])
      | Thrown error =>
          let* continue := get (continueOnFail this) in
          if (continue : bool) then
            loop remaining' (S i) (returnData ++ [errorEntry error i])
          else
            let* node := get (getNode this) in
            throw (NodeOperationError_new node error i)
      end
  end.

Definition execute : M W (list (list INodeExecutionData)) :=
  let* items := get (getInputData this) in
  let* returnData := loop (length items) 0 [] in
  ret [returnData].

End Execute.

(** ** The constructor of n8n-workflow

    [new NodeOperationError(node, error, {itemIndex})] as the library
    evaluates it: an [error] that is already a [NodeOperationError] is
    returned as it is; for any other error the result is a new
    [NodeOperationError] for [node], built from [error], with
    [context.itemIndex = itemIndex].  The message of the new error is the
    library's business (it takes the message of [error] and rewrites it for
    the error codes it knows): [describe error] stands for it. *)

Module NWorkflow.

Definition NodeOperationError_new (describe : JsError -> string)
    (node : INode) (error : JsError) (itemIndex : nat) : JsError :=
  match error with
  | NodeOperationError _ _ _ _ => error
  | Error _ => NodeOperationError node error (Some itemIndex) (describe error)
  end.

End NWorkflow.

(** ** The test double of the repository's test suite

    [createMockExecuteFunctions] of [UpscaleImg.node.test.ts]: parameters
    are the same for every item, the world counts the [httpRequest] calls,
    the upload answers [API_RESPONSE] and the download [DOWNLOADED_IMAGE]. *)

Module Mock.

Definition FAKE_PNG : Buffer :=
  [Byte.x89; Byte.x50; Byte.x4e; Byte.x47; Byte.x0d; Byte.x0a; Byte.x1a; Byte.x0a].

Definition API_RESPONSE : UpscaleResponse :=
  {| original :=
       JObject
         [("size", JNumber 8%Z); ("width", JNumber 100%Z); ("height", JNumber 100%Z);
          ("mimeType", JString "image/png"); ("fileExt", JString "png")];
     result :=
       {| res_size := 32; res_width := 200; res_height := 200;
          res_mimeType := "image/webp"; res_fileExt := "webp";
          res_url := "https://s3.example.com/upscaled.webp?signed=1" |} |}.

Definition DOWNLOADED_IMAGE : Buffer :=
  list_byte_of_string "fake-upscaled-image-data".

Definition MOCK_BINARY_OUTPUT : IBinaryData :=
  {| bin_data := "base64data";
     bin_mimeType := Some "image/webp";
     bin_fileName := Some "photo_upscaled.webp" |}.

Record MockParams := {
  binaryPropertyName : string;
  resizeMode : string;
  scale : JsNumber;
  customWidth : JsNumber;
  customHeight : JsNumber;
  objectFit : string;
  options : Options
}.

Definition noOptions : Options :=
  {| outputFormat := None; removeMetadata := None; outputBinaryPropertyName := None |}.

Definition defaults : MockParams :=
  {| binaryPropertyName := "data";
     resizeMode := "scale";
     scale := SafeInteger 2 I;
     customWidth := SafeInteger 1920 I;
     customHeight := SafeInteger 1080 I;
     objectFit := "cover";
     options := noOptions |}.

Record MockOptions := {
  params : MockParams;
  continueOnFailFlag : bool;
  items : list INodeExecutionData;
  httpRequestFail : bool;
  assertBinaryDataFail : bool;
  binaryFileName : option string;
  binaryMimeType : option string
}.

Definition inputItem (fileName : string) : INodeExecutionData :=
  {| json := JObject [];
     binary :=
       Some {[ "data" := {| bin_data := "";
                            bin_mimeType := Some "image/png";
                            bin_fileName := Some fileName |} ]};
     pairedItem := None |}.

Definition defaultOptions : MockOptions :=
  {| params := defaults;
     continueOnFailFlag := false;
     items := [inputItem "photo.png"];
     httpRequestFail := false;
     assertBinaryDataFail := false;
     binaryFileName := Some "photo.png";
     binaryMimeType := Some "image/png" |}.

(** The test cases: [createMockExecuteFunctions({params: {...}})]. *)
Definition withParams (ps : MockParams) : MockOptions :=
  {| params := ps;
     continueOnFailFlag := false;
     items := [inputItem "photo.png"];
     httpRequestFail := false;
     assertBinaryDataFail := false;
     binaryFileName := Some "photo.png";
     binaryMimeType := Some "image/png" |}.

Definition withOptions (o : Options) : MockParams :=
  {| binaryPropertyName := "data";
     resizeMode := "scale";
     scale := SafeInteger 2 I;
     customWidth := SafeInteger 1920 I;
     customHeight := SafeInteger 1080 I;
     objectFit := "cover";
     options := o |}.

Definition withResizeMode (mode : string) : MockParams :=
  {| binaryPropertyName := "data";
     resizeMode := mode;
     scale := SafeInteger 2 I;
     customWidth := SafeInteger 3840 I;
     customHeight := SafeInteger 2160 I;
     objectFit := "contain";
     options := noOptions |}.

Definition withBinary (fileName mimeType : option string) : MockOptions :=
  {| params := defaults;
     continueOnFailFlag := false;
     items := [inputItem "photo.png"];
     httpRequestFail := false;
     assertBinaryDataFail := false;
     binaryFileName := fileName;
     binaryMimeType := mimeType |}.

Definition param (ps : MockParams) (p : ParamName) : ParamType p :=
  match p with
  | p_binaryPropertyName => binaryPropertyName ps
  | p_resizeMode => resizeMode ps
  | p_scale => scale ps
  | p_customWidth => customWidth ps
  | p_customHeight => customHeight ps
  | p_objectFit => objectFit ps
  | p_options => options ps
  end.

Definition answer (k : ResponseShape) : ResponseType k :=
  match k with
  | AsUpscaleResponse => WellShaped API_RESPONSE
  | AsArrayBuffer => WellShaped DOWNLOADED_IMAGE
  end.

Definition createMockExecuteFunctions (opts : MockOptions) : IExecuteFunctions nat :=
  {| getInputData := fun _ => items opts;
     getNode := fun _ => {| node_name := "UpscaleIMG" |};
     continueOnFail := fun _ => continueOnFailFlag opts;
     getNodeParameter := fun p _ w => (Returned (param (params opts) p), w);
     getCredentials := fun _ w => (Returned {| apiKey := "test-api-key-123" |}, w);
     assertBinaryData := fun _ _ w =>
       if assertBinaryDataFail opts then (Thrown (Error "No binary data found"), w)
       else (Returned {| bin_data := "iVBORw0KGgo=";
                         bin_mimeType := binaryMimeType opts;
                         bin_fileName := binaryFileName opts |}, w);
     getBinaryDataBuffer := fun _ _ w => (Returned FAKE_PNG, w);
     httpRequest := fun k _ w =>
       if httpRequestFail opts then (Thrown (Error "API request failed"), S w)
       else (Returned (answer k), S w);
     prepareBinaryData := fun _ _ _ w => (Returned MOCK_BINARY_OUTPUT, w) |}.

(** A context whose [getCredentials] throws [error] (no credentials are
    set on the node), the other members being those of the test double. *)
Definition withoutCredentials (error : JsError) (opts : MockOptions)
  : IExecuteFunctions nat :=
  let mock := createMockExecuteFunctions opts in
  {| getInputData := getInputData mock;
     getNode := getNode mock;
     continueOnFail := continueOnFail mock;
     getNodeParameter := getNodeParameter mock;
     getCredentials := fun _ w => (Thrown error, w);
     assertBinaryData := assertBinaryData mock;
     getBinaryDataBuffer := getBinaryDataBuffer mock;
     httpRequest := httpRequest mock;
     prepareBinaryData := prepareBinaryData mock |}.

End Mock.

(** ** Observations on a transcript *)

(** The error a recorded call made the item fail with, if it did: the
    error it threw, or the [TypeError] its ill-shaped result leads to. *)
Definition failure (c : HostCall) : option JsError :=
  match c with
  | call_getNodeParameter _ _ (Thrown e) => Some e
  | call_getCredentials _ (Thrown e) => Some e
  | call_assertBinaryData _ _ (Thrown e) => Some e
  | call_getBinaryDataBuffer _ _ (Thrown e) => Some e
  | call_httpRequest _ _ (Thrown e) => Some e
  | call_httpRequest _ _ (Returned (IllShaped m)) => Some (Error m)
  | call_prepareBinaryData _ _ _ (Thrown e) => Some e
  | _ => None
  end.

(** Did the recorded call make the item fail? *)
Definition failed (c : HostCall) : bool :=
  match failure c with
  | Some _ => true
  | None => false
  end.

(** The requests handed to [httpRequest], in the order of the calls. *)
Definition requests (cs : list HostCall) : list IHttpRequestOptions :=
  omap (fun c => match c with
                 | call_httpRequest _ requestOptions _ => Some requestOptions
                 | _ => None
                 end) cs.

(** The value [execute] resolves to: [[returnData]]. *)
Definition wrap (r : Outcome (list INodeExecutionData))
  : Outcome (list (list INodeExecutionData)) :=
  match r with
  | Returned returnData => Returned [returnData]
  | Thrown e => Thrown e
  end.

(** ** More observations on a transcript *)

(** The item index handed to the call, for the calls that take one. *)
Definition itemIndexOf (c : HostCall) : option nat :=
  match c with
  | call_getNodeParameter _ i _ => Some i
  | call_assertBinaryData i _ _ => Some i
  | call_getBinaryDataBuffer i _ _ => Some i
  | _ => None
  end.

(** The parameters read with [getNodeParameter], in the order of the reads. *)
Definition parametersRead (cs : list HostCall) : list ParamName :=
  omap (fun c => match c with
                 | call_getNodeParameter p _ _ => Some p
                 | _ => None
                 end) cs.

(** The method of the context each entry is a call of. *)
Definition callName (c : HostCall) : string :=
  match c with
  | call_getNodeParameter _ _ _ => "getNodeParameter"
  | call_getCredentials _ _ => "getCredentials"
  | call_assertBinaryData _ _ _ => "assertBinaryData"
  | call_getBinaryDataBuffer _ _ _ => "getBinaryDataBuffer"
  | call_httpRequest _ _ _ => "httpRequest"
  | call_prepareBinaryData _ _ _ _ => "prepareBinaryData"
  end.

(** Is [entry] an entry of the [catch] block, [{json: {error: ...}}]? *)
Definition isErrorEntry (entry : INodeExecutionData) : bool :=
  match prop "error" (json entry) with
  | Some _ => true
  | None => false
  end.

(** ** The node description (lines 14-175)

    The [properties] of [UpscaleImg.description], as data.  The [options]
    of a property of type [options] are choices, those of a [collection]
    are properties.  [subtitle], an expression for the editor, is left out. *)

Module Description.

Record INodePropertyOptions := {
  choice_name : string;
  choice_value : Json;
  choice_description : option string
}.

#[warnings="-register-all"]
Inductive INodeProperties := {
  displayName : string;
  name : string;
  type : string;
  default : Json;
  required : option bool;
  description : option string;
  placeholder : option string;
  displayOptions_show : list (string * list Json);
  typeOptions : list (string * Json);
  options : list (INodePropertyOptions + INodeProperties)
}.

Definition choice (n : string) (v : Json) (d : option string)
  : INodePropertyOptions + INodeProperties :=
  inl {| choice_name := n; choice_value := v; choice_description := d |}.

Definition properties : list INodeProperties :=
  [ {| displayName := "Input Binary Field";
       name := "binaryPropertyName";
       type := "string";
       default := JString "data";
       required := Some true;
       description := Some "Name of the binary property containing the image to upscale";
       placeholder := None;
       displayOptions_show := [];
       typeOptions := [];
       options := [] |};
    {| displayName := "Resize Mode";
       name := "resizeMode";
       type := "options";
       default := JString "scale";
       required := None;
       description := Some "How to determine the output image size";
       placeholder := None;
       displayOptions_show := [];
       typeOptions := [];
       options :=
         [choice "Scale" (JString "scale") (Some "Upscale by a fixed factor (2x or 4x)");
          choice "Custom Dimensions" (JString "customDimensions")
            (Some "Specify exact output width and height")] |};
    {| displayName := "Scale Factor";
       name := "scale";
       type := "options";
       default := JNumber 2;
       required := None;
       description := Some "Factor to upscale the image by";
       placeholder := None;
       displayOptions_show := [("resizeMode", [JString "scale"])];
       typeOptions := [];
       options := [choice "2x" (JNumber 2) None; choice "4x" (JNumber 4) None] |};
    {| displayName := "Width";
       name := "customWidth";
       type := "number";
       default := JNumber 1920;
       required := Some true;
       description := Some "Target output width in pixels";
       placeholder := None;
       displayOptions_show := [("resizeMode", [JString "customDimensions"])];
       typeOptions := [("minValue", JNumber 1)];
       options := [] |};
    {| displayName := "Height";
       name := "customHeight";
       type := "number";
       default := JNumber 1080;
       required := Some true;
       description := Some "Target output height in pixels";
       placeholder := None;
       displayOptions_show := [("resizeMode", [JString "customDimensions"])];
       typeOptions := [("minValue", JNumber 1)];
       options := [] |};
    {| displayName := "Object Fit";
       name := "objectFit";
       type := "options";
       default := JString "cover";
       required := None;
       description := Some "How to fit the image into the target dimensions";
       placeholder := None;
       displayOptions_show := [("resizeMode", [JString "customDimensions"])];
       typeOptions := [];
       options :=
         [choice "Cover" (JString "cover") (Some "Crop to fill dimensions");
          choice "Contain" (JString "contain") (Some "Fit within dimensions, may letterbox");
          choice "Fill" (JString "fill") (Some "Stretch to fill dimensions exactly")] |};
    {| displayName := "Options";
       name := "options";
       type := "collection";
       default := JObject [];
       required := None;
       description := None;
       placeholder := Some "Add Option";
       displayOptions_show := [];
       typeOptions := [];
       options :=
         [inr {| displayName := "Output Format";
                 name := "outputFormat";
                 type := "options";
                 default := JString "png";
                 required := None;
                 description := Some "Format of the output image";
                 placeholder := None;
                 displayOptions_show := [];
                 typeOptions := [];
                 options :=
                   [choice "PNG" (JString "png") None;
                    choice "JPEG" (JString "jpg") None;
                    choice "WebP" (JString "webp") None] |};
          inr {| displayName := "Remove Metadata";
                 name := "removeMetadata";
                 type := "boolean";
                 default := JBool false;
                 required := None;
                 description :=
                   Some "Whether to strip EXIF and other metadata from the output image";
                 placeholder := None;
                 displayOptions_show := [];
                 typeOptions := [];
                 options := [] |};
          inr {| displayName := "Output Binary Field";
                 name := "outputBinaryPropertyName";
                 type := "string";
                 default := JString "data";
                 required := None;
                 description := Some "Name of the binary property to store the upscaled image";
                 placeholder := None;
                 displayOptions_show := [];
                 typeOptions := [];
                 options := [] |}] |} ].

(** [description.credentials]: name and [required]. *)
Definition credentials : list (string * bool) := [("upscaleImgApi", true)].

(** Does [displayOptions.show.resizeMode] of [p] list [mode], or is there
    no such condition on [p]? *)
Definition listsResizeMode (mode : string) (p : INodeProperties) : bool :=
  match List.find (fun kv => String.eqb (fst kv) "resizeMode") (displayOptions_show p) with
  | None => true
  | Some (_, values) =>
      existsb (fun v => match v with
                        | JString s => String.eqb s mode
                        | _ => false
                        end) values
  end.

(** The names of the properties declared for [mode]. *)
Definition declaredFor (mode : string) : list string :=
  map name (List.filter (listsResizeMode mode) properties).

End Description.

(** ** The credential type ([UpscaleImgApi]) *)

Module UpscaleImgApi.

Definition name : string := "upscaleImgApi".
Definition displayName : string := "UpscaleIMG API".
Definition documentationUrl : string := "https://upscaleimg.app/en/api-docs".

Definition properties : list Description.INodeProperties :=
  [ {| Description.displayName := "API Key";
       Description.name := "apiKey";
       Description.type := "string";
       Description.default := JString "";
       Description.required := Some true;
       Description.description := None;
       Description.placeholder := None;
       Description.displayOptions_show := [];
       Description.typeOptions := [("password", JBool true)];
       Description.options := [] |} ].

Record IAuthenticateGeneric := {
  auth_type : string;
  auth_headers : list (string * string)
}.

Definition authenticate : IAuthenticateGeneric :=
  {| auth_type := "generic";
     auth_headers := [("Authorization", "=Bearer {{$credentials.apiKey}}")] |}.

End UpscaleImgApi.

(** * Properties *)

(** ** The operators on concrete values *)

Example baseName_examples :
  baseName "photo.png" = "photo" /\
  baseName "archive.tar.gz" = "archive.tar" /\
  baseName "noext" = "noext" /\
  baseName "trailing." = "trailing." /\
  baseName "a..b" = "a." /\
  baseName ".hidden" = "".
Proof. repeat split. Qed.

Example String__examples :
  String_ (SafeInteger 2 I) = "2" /\ String_ (SafeInteger 4 I) = "4" /\
  String_ (SafeInteger 3840 I) = "3840" /\ String_ (SafeInteger 0 I) = "0" /\
  String_ (SafeInteger (-7) I) = "-7" /\
  String_ (SafeInteger 9007199254740991 I) = "9007199254740991" /\
  String_ (OtherNumber "1e+21") = "1e+21".
Proof. repeat split. Qed.

Example orElse_examples :
  orElse None "image.png" = "image.png" /\
  orElse (Some "") "image.png" = "image.png" /\
  orElse (Some "photo.png") "image.png" = "photo.png".
Proof. repeat split. Qed.

(** One item, [photo.png], scale 2: one entry with [pairedItem = {item: 0}]
    and the attachment under [data]; two requests, the upload and then the
    download from the URL of the response. *)
Example end_to_end :
  let this := Mock.createMockExecuteFunctions Mock.defaultOptions in
  match execute this (NWorkflow.NodeOperationError_new message) 0 with
  | (Returned [[entry]], w, cs) =>
      pairedItem entry = Some {| item := 0 |} /\
      (binary entry ≫= (.!! "data")) = Some Mock.MOCK_BINARY_OUTPUT /\
      w = 2 /\
      map method (requests cs) = ["POST"; "GET"] /\
      map url (requests cs) =
        ["https://upscaleimg.app/api/v1/upscale";
         "https://s3.example.com/upscaled.webp?signed=1"]
  | _ => False
  end.
Proof. cbn. repeat split. Qed.

(** ** Transcript entries are injective in their outcome *)

Lemma call_getNodeParameter_inj p i j (r1 r2 : Outcome (ParamType p)) :
  call_getNodeParameter p i r1 = call_getNodeParameter p j r2 -> i = j /\ r1 = r2.
Proof.
  intros H. inversion H as [[Hi Hr]]. split; [done|].
  apply (inj_pair2_eq_dec _ ParamName_eq_dec) in Hr. exact Hr.
Qed.

Lemma call_httpRequest_inj k o1 o2 (r1 r2 : Outcome (ResponseType k)) :
  call_httpRequest k o1 r1 = call_httpRequest k o2 r2 -> o1 = o2 /\ r1 = r2.
Proof.
  intros H. inversion H as [[Ho Hr]]. split; [done|].
  apply (inj_pair2_eq_dec _ ResponseShape_eq_dec) in Hr. exact Hr.
Qed.

(** ** Symbolic execution of one item

    [run H] unfolds [processItem] in [H : processItem this i w = _] and
    splits on the outcome of every call of the context, in program order;
    each resulting goal is one path through the [try] block, with the
    transcript of that path spelled out. *)

Ltac run_step H :=
  match type of H with
  | context [getNodeParameter ?t ?p ?i ?w] =>
      let E := fresh "E" in destruct (getNodeParameter t p i w) as [[?|?] ?] eqn:E
  | context [getCredentials ?t ?n ?w] =>
      let E := fresh "E" in destruct (getCredentials t n w) as [[?|?] ?] eqn:E
  | context [assertBinaryData ?t ?i ?n ?w] =>
      let E := fresh "E" in destruct (assertBinaryData t i n w) as [[?|?] ?] eqn:E
  | context [getBinaryDataBuffer ?t ?i ?n ?w] =>
      let E := fresh "E" in destruct (getBinaryDataBuffer t i n w) as [[?|?] ?] eqn:E
  | context [httpRequest ?t ?k ?o ?w] =>
      let E := fresh "E" in destruct (httpRequest t k o w) as [[?|?] ?] eqn:E
  | context [prepareBinaryData ?t ?b ?f ?m ?w] =>
      let E := fresh "E" in destruct (prepareBinaryData t b f m w) as [[?|?] ?] eqn:E
  | context [String.eqb ?a ?b] =>
      destruct (String.eqb_spec a b)
  | context [match ?v with WellShaped _ => _ | IllShaped _ => _ end] =>
      destruct v as [?|?]
  end;
  cbv beta iota delta [bind call ret throw access app] in H.

Ltac run H :=
  unfold processItem, appendResize, this_getNodeParameter, this_getCredentials,
    this_assertBinaryData, this_getBinaryDataBuffer, this_httpRequest,
    this_prepareBinaryData in H;
  cbv beta iota delta [bind call ret throw access app] in H;
  repeat run_step H;
  simplify_eq.

(** [member H] splits [H : c ∈ [c1; ...; cn]] into the entries [c] can be. *)
Ltac member H :=
  repeat (apply elem_of_cons in H; destruct H as [H|H]; [try discriminate H|]);
  try (apply elem_of_nil in H; destruct H).

Section Items.
Context {W : Type} (this : IExecuteFunctions W).

(** A successful item carries its own index. *)
Lemma processItem_pairedItem i w entry w' cs :
  processItem this i w = (Returned entry, w', cs) ->
  pairedItem entry = Some {| item := i |}.
Proof.
  intros H. run H; reflexivity.
Qed.

(** The [try] block throws only when a call of the context failed the item. *)
Lemma processItem_thrown i w e w' cs :
  processItem this i w = (Thrown e, w', cs) -> existsb failed cs = true.
Proof.
  intros H. run H; reflexivity.
Qed.

End Items.

(** ** The loop *)

Section Loop.
Context {W : Type} (this : IExecuteFunctions W).
Context (NodeOperationError_new : INode -> JsError -> nat -> JsError).

(** One iteration, written out: lines 182-295 for item [i]. *)
Lemma loop_S n i returnData w :
  loop this NodeOperationError_new (S n) i returnData w =
  match processItem this i w with
  | (Returned entry, w1, c1) =>
      match loop this NodeOperationError_new n (S i) (returnData ++ [entry]) w1 with
      | (r, w2, c2) => (r, w2, c1 ++ c2)
      end
  | (Thrown error, w1, c1) =>
      if continueOnFail this w1 then
        match loop this NodeOperationError_new n (S i) (returnData ++ [errorEntry error i]) w1 with
        | (r, w2, c2) => (r, w2, c1 ++ c2)
        end
      else (Thrown (NodeOperationError_new (getNode this w1) error i), w1, c1)
  end.
Proof.
  cbn [loop]. unfold bind at 1, try.
  destruct (processItem this i w) as [[[entry|error] w1] c1]; [reflexivity|].
  unfold bind, get, throw.
  destruct (continueOnFail this w1).
  - destruct (loop this NodeOperationError_new n (S i) _ w1) as [[r w2] c2]. reflexivity.
  - cbn. by rewrite app_nil_r.
Qed.

(** Running [a + b] iterations is running [a] of them and then, unless the
    run was aborted, the other [b]. *)
Lemma loop_add a b i returnData w :
  loop this NodeOperationError_new (a + b) i returnData w =
  match loop this NodeOperationError_new a i returnData w with
  | (Returned returnData', w1, c1) =>
      match loop this NodeOperationError_new b (i + a) returnData' w1 with
      | (r, w2, c2) => (r, w2, c1 ++ c2)
      end
  | (Thrown e, w1, c1) => (Thrown e, w1, c1)
  end.
Proof.
  revert i returnData w. induction a as [|a IH]; intros i returnData w.
  - cbn. rewrite Nat.add_0_r.
    by destruct (loop this NodeOperationError_new b i returnData w) as [[r w2] c2].
  - replace (S a + b) with (S (a + b)) by done. rewrite !loop_S.
    destruct (processItem this i w) as [[[entry|error] w1] c1].
    + rewrite IH.
      destruct (loop this NodeOperationError_new a (S i) _ w1)
        as [[[rd|e] w2] c2]; [|done].
      replace (i + S a) with (S i + a) by lia.
      destruct (loop this NodeOperationError_new b (S i + a) rd w2) as [[r w3] c3].
      by rewrite app_assoc.
    + destruct (continueOnFail this w1); [|done].
      rewrite IH.
      destruct (loop this NodeOperationError_new a (S i) _ w1)
        as [[[rd|e] w2] c2]; [|done].
      replace (i + S a) with (S i + a) by lia.
      destruct (loop this NodeOperationError_new b (S i + a) rd w2) as [[r w3] c3].
      by rewrite app_assoc.
Qed.

(** What a run of [n] iterations from item [i] returns, when failures are
    turned into entries or no call of the context throws. *)
Lemma loop_entries n : forall i returnData w r w' cs,
  loop this NodeOperationError_new n i returnData w = (r, w', cs) ->
  (forall w1, continueOnFail this w1 = true) \/ existsb failed cs = false ->
  exists entries,
    r = Returned (returnData ++ entries) /\
    length entries = n /\
    forall j, j < n ->
      pairedItem <$> entries !! j = Some (Some {| item := i + j |}).
Proof.
  induction n as [|n IH]; intros i returnData w r w' cs Hrun Hok.
  - injection Hrun as <- <- <-. exists []. rewrite app_nil_r. split_and!; [done..|lia].
  - rewrite loop_S in Hrun.
    destruct (processItem this i w) as [[[entry|error] w1] c1] eqn:Hitem.
    + destruct (loop this NodeOperationError_new n (S i) _ w1) as [[r2 w2] c2] eqn:Hrest.
      injection Hrun as <- <- <-.
      destruct (IH _ _ _ _ _ _ Hrest) as (entries & -> & Hlen & Hpaired).
      { destruct Hok as [Hok|Hok]; [by left|right].
        rewrite existsb_app in Hok. by apply orb_false_elim in Hok as [_ ?]. }
      exists (entry :: entries). split_and!.
      * by rewrite <- app_assoc.
      * cbn. by rewrite Hlen.
      * intros [|j] Hj; cbn.
        -- rewrite (processItem_pairedItem _ _ _ _ _ _ Hitem).
           by rewrite Nat.add_0_r.
        -- rewrite Hpaired by lia. do 3 f_equal. lia.
    + assert (Hcontinue : continueOnFail this w1 = true).
      { destruct Hok as [Hok|Hok]; [done|].
        destruct (continueOnFail this w1); [done|].
        injection Hrun as <- <- <-.
        apply processItem_thrown in Hitem. congruence. }
      rewrite Hcontinue in Hrun.
      destruct (loop this NodeOperationError_new n (S i) _ w1) as [[r2 w2] c2] eqn:Hrest.
      injection Hrun as <- <- <-.
      destruct (IH _ _ _ _ _ _ Hrest) as (entries & -> & Hlen & Hpaired).
      { destruct Hok as [Hok|Hok]; [by left|right].
        rewrite existsb_app in Hok. by apply orb_false_elim in Hok as [_ ?]. }
      exists (errorEntry error i :: entries). split_and!.
      * by rewrite <- app_assoc.
      * cbn. by rewrite Hlen.
      * intros [|j] Hj; cbn.
        -- by rewrite Nat.add_0_r.
        -- rewrite Hpaired by lia. do 3 f_equal. lia.
Qed.

(** [execute] is the loop over all input items, from item 0 and an empty
    [returnData]. *)
Lemma execute_loop w :
  execute this NodeOperationError_new w =
  match loop this NodeOperationError_new (length (getInputData this w)) 0 [] w with
  | (r, w', cs) => (wrap r, w', cs)
  end.
Proof.
  unfold execute, bind, get, ret.
  destruct (loop this NodeOperationError_new _ 0 [] w) as [[[returnData|e] w'] cs]; cbn; [|done].
  by rewrite app_nil_r.
Qed.

End Loop.

(** ** Claims about the run as a whole *)

(** C1. When failures are turned into entries (continue-on-failure is on),
    or when no item fails (no call of the context throws or returns an
    ill-shaped response during the run), [execute] returns one list holding
    exactly one entry per input item, and the entry at position [i] has
    [pairedItem = {item: i}]. *)
Theorem execute_one_entry_per_item {W} (this : IExecuteFunctions W)
    (NodeOperationError_new : INode -> JsError -> nat -> JsError) w r w' cs :
  execute this NodeOperationError_new w = (r, w', cs) ->
  (forall w1, continueOnFail this w1 = true) \/ (forall c, c ∈ cs -> failed c = false) ->
  exists returnData,
    r = Returned [returnData] /\
    length returnData = length (getInputData this w) /\
    forall i, i < length (getInputData this w) ->
      pairedItem <$> returnData !! i = Some (Some {| item := i |}).
Proof.
  intros Hrun Hok. rewrite execute_loop in Hrun.
  destruct (loop this NodeOperationError_new _ 0 [] w) as [[r0 w0] cs0] eqn:Hloop.
  injection Hrun as <- <- <-.
  destruct (loop_entries this NodeOperationError_new _ _ _ _ _ _ _ Hloop)
    as (entries & -> & Hlen & Hpaired).
  - destruct Hok as [Hok|Hok]; [by left|right].
    apply not_true_is_false. intros (c & Hc & Hfailed)%existsb_exists.
    apply list_elem_of_In in Hc. rewrite (Hok c Hc) in Hfailed. discriminate.
  - exists entries. split_and!; [done..|].
    intros i Hi. by rewrite (Hpaired i Hi).
Qed.

Lemma execute_one_entry_per_item_witness :
  let this :=
    Mock.createMockExecuteFunctions
      {| Mock.params := Mock.defaults;
         Mock.continueOnFailFlag := true;
         Mock.items := [Mock.inputItem "a.png"; Mock.inputItem "b.png"];
         Mock.httpRequestFail := false;
         Mock.assertBinaryDataFail := false;
         Mock.binaryFileName := Some "photo.png";
         Mock.binaryMimeType := Some "image/png" |} in
  exists returnData,
    fst (fst (execute this (NWorkflow.NodeOperationError_new message) 0))
      = Returned [returnData] /\
    length returnData = 2 /\
    forall i, i < 2 -> pairedItem <$> returnData !! i = Some (Some {| item := i |}).
Proof.
  intros this.
  exact (execute_one_entry_per_item this (NWorkflow.NodeOperationError_new message)
           0 _ _ _ eq_refl (or_introl (fun _ => eq_refl))).
Defined.

(** C2 (amended). When the processing of item [i] throws [error] (the items
    before it having been processed): with continue-on-failure on, the loop
    pushes [{json: {error: error.message}, pairedItem: {item: i}}] for that
    item and goes on with item [i + 1]; with continue-on-failure off,
    [execute] throws what [new NodeOperationError(node, error, {itemIndex:
    i})] evaluates to and returns nothing.  With the constructor of
    n8n-workflow that is [error] itself when [error] is already a
    [NodeOperationError], and otherwise a new [NodeOperationError] of the
    node, built from [error], with [context.itemIndex = i]. *)
Theorem failed_item_policy {W} (this : IExecuteFunctions W)
    (NodeOperationError_new : INode -> JsError -> nat -> JsError)
    w i returnData wi ci error wi' c :
  i < length (getInputData this w) ->
  loop this NodeOperationError_new i 0 [] w = (Returned returnData, wi, ci) ->
  processItem this i wi = (Thrown error, wi', c) ->
  let entry :=
    {| json := JObject [("error", JString (message error))];
       binary := None;
       pairedItem := Some {| item := i |} |} in
  if continueOnFail this wi' then
    loop this NodeOperationError_new (S i) 0 [] w
      = (Returned (returnData ++ [entry]), wi', ci ++ c) /\
    execute this NodeOperationError_new w =
      match loop this NodeOperationError_new (length (getInputData this w) - S i) (S i)
                 (returnData ++ [entry]) wi' with
      | (r, w', cs) => (wrap r, w', ci ++ c ++ cs)
      end
  else
    execute this NodeOperationError_new w =
      (Thrown (NodeOperationError_new (getNode this wi') error i), wi', ci ++ c) /\
    forall describe,
      NodeOperationError_new = NWorkflow.NodeOperationError_new describe ->
      NodeOperationError_new (getNode this wi') error i =
        if isNodeOperationError error then error
        else NodeOperationError (getNode this wi') error (Some i) (describe error).
Proof.
  intros Hi Hbefore Hitem entry.
  assert (Hstep : forall n,
    loop this NodeOperationError_new (i + S n) 0 [] w =
    if continueOnFail this wi' then
      match loop this NodeOperationError_new n (S i) (returnData ++ [entry]) wi' with
      | (r, w', cs) => (r, w', ci ++ c ++ cs)
      end
    else (Thrown (NodeOperationError_new (getNode this wi') error i), wi', ci ++ c)).
  { intros n. rewrite loop_add, Hbefore, loop_S. cbn [Nat.add]. rewrite Hitem.
    destruct (continueOnFail this wi'); [|done].
    fold entry. unfold errorEntry. fold entry.
    by destruct (loop this NodeOperationError_new n (S i) _ wi') as [[r w2] c2]. }
  assert (Hexec : execute this NodeOperationError_new w =
    match loop this NodeOperationError_new
            (i + S (length (getInputData this w) - S i)) 0 [] w with
    | (r, w', cs) => (wrap r, w', cs)
    end).
  { rewrite execute_loop.
    by replace (i + S (_ - S i)) with (length (getInputData this w)) by lia. }
  rewrite Hexec, Hstep. clear Hexec.
  specialize (Hstep 0). replace (i + 1) with (S i) in Hstep by lia.
  destruct (continueOnFail this wi').
  - split.
    + rewrite Hstep. cbn. by rewrite app_nil_r.
    + by destruct (loop this NodeOperationError_new (_ - S i) (S i) _ wi')
        as [[r w2] c2].
  - split; [done|]. intros describe ->. by destruct error.
Qed.

Lemma failed_item_policy_witness :
  let this :=
    Mock.createMockExecuteFunctions
      {| Mock.params := Mock.defaults;
         Mock.continueOnFailFlag := false;
         Mock.items := [Mock.inputItem "photo.png"];
         Mock.httpRequestFail := true;
         Mock.assertBinaryDataFail := false;
         Mock.binaryFileName := Some "photo.png";
         Mock.binaryMimeType := Some "image/png" |} in
  fst (fst (execute this (NWorkflow.NodeOperationError_new message) 0)) =
    Thrown (NodeOperationError {| node_name := "UpscaleIMG" |}
              (Error "API request failed") (Some 0) "API request failed").
Proof.
  intros this.
  destruct (failed_item_policy this (NWorkflow.NodeOperationError_new message)
              0 0 [] 0 [] (Error "API request failed") 1
              (snd (processItem this 0 0))
              ltac:(cbn; lia) eq_refl eq_refl) as [Hexec _].
  by rewrite Hexec.
Defined.

(** C2 as stated fails: a call of the context may throw a
    [NodeOperationError] that has no item index, as [getCredentials] does
    when the node has no credentials; the constructor hands it back, and
    [execute] throws it as it is, without the index of the item. *)
Lemma NodeOperationError_is_thrown_as_it_is :
  ~ (forall (this : IExecuteFunctions nat) w i returnData wi ci error wi' c,
        i < length (getInputData this w) ->
        loop this (NWorkflow.NodeOperationError_new message) i 0 [] w
          = (Returned returnData, wi, ci) ->
        processItem this i wi = (Thrown error, wi', c) ->
        continueOnFail this wi' = false ->
        exists thrown w' cs,
          execute this (NWorkflow.NodeOperationError_new message) w
            = (Thrown thrown, w', cs) /\
          context_itemIndex thrown = Some i /\
          message thrown = message error).
Proof.
  intros Hclaim.
  pose (error :=
    NodeOperationError {| node_name := "UpscaleIMG" |}
      (Error "Node does not have any credentials set") None
      "Node does not have any credentials set").
  pose (this := Mock.withoutCredentials error Mock.defaultOptions).
  destruct (Hclaim this 0 0 [] 0 [] error 0 (snd (processItem this 0 0))
              ltac:(cbn; lia) eq_refl eq_refl eq_refl)
    as (thrown & w' & cs & Hexec & Hindex & _).
  injection Hexec as <- _ _. discriminate Hindex.
Qed.

(** ** The upload form *)

(** [upload H Hr] runs the item in [H] and keeps the paths on which the
    upload request [Hr] was issued, with the request identified. *)
Ltac upload H Hr :=
  run H; member Hr; apply call_httpRequest_inj in Hr as [-> _].

(** [read H] identifies a [getNodeParameter] entry [H] of the transcript. *)
Ltac read H :=
  member H; apply call_getNodeParameter_inj in H as [_ H]; simplify_eq.

Lemma decimal_numeral n :
  option_map Z.of_int
    (NilZero.int_of_string (NilZero.string_of_int (Z.to_int n))) = Some n.
Proof.
  rewrite NilZero.isi.
  - cbn. by rewrite DecimalZ.of_to.
  - destruct n as [|p|p]; [done| |done]. cbn. intros [= Hp].
    by apply DecimalPos.Unsigned.to_uint_nonnil in Hp.
  - destruct n as [|p|p]; [done..|]. cbn. intros [= Hp].
    by apply DecimalPos.Unsigned.to_uint_nonnil in Hp.
Qed.

Section Form.
Context {W : Type} (this : IExecuteFunctions W).

(** C3. The upload form of an item has a [removeMetadata] field exactly when
    [options.removeMetadata] is defined: its value is ["1"] for [true] and
    ["0"] for [false], and there is no such field when it is [undefined]. *)
Theorem removeMetadata_field i w r w' cs options requestOptions response form :
  processItem this i w = (r, w', cs) ->
  call_getNodeParameter p_options i (Returned options) ∈ cs ->
  call_httpRequest AsUpscaleResponse requestOptions response ∈ cs ->
  body requestOptions = Some form ->
  fieldValues "removeMetadata" form =
    match removeMetadata options with
    | Some true => [TextValue "1"]
    | Some false => [TextValue "0"]
    | None => []
    end /\
  (hasField "removeMetadata" form = true <-> removeMetadata options <> None).
Proof.
  intros H Ho Hr Hb.
  upload H Hr; read Ho; injection Hb as <-.
  all: unfold appendOptions.
  all: match goal with
       | |- context [removeMetadata ?o] =>
           destruct (truthy (outputFormat o)), (removeMetadata o) as [[|]|]
       end.
  all: cbn; split; [reflexivity|]; split; congruence.
Qed.

(** C4. In scale mode with factor 2 or 4, the upload form has one [scale]
    field, whose value is the decimal numeral of the factor, and no
    [customWidth], [customHeight] or [objectFit] field. *)
Theorem scale_mode_form i w r w' cs scale factor requestOptions response form :
  processItem this i w = (r, w', cs) ->
  call_getNodeParameter p_resizeMode i (Returned "scale") ∈ cs ->
  call_getNodeParameter p_scale i (Returned scale) ∈ cs ->
  integer scale = Some factor ->
  factor = 2%Z \/ factor = 4%Z ->
  call_httpRequest AsUpscaleResponse requestOptions response ∈ cs ->
  body requestOptions = Some form ->
  fieldValues "scale" form = [TextValue (if Z.eqb factor 2 then "2" else "4")] /\
  hasField "customWidth" form = false /\
  hasField "customHeight" form = false /\
  hasField "objectFit" form = false.
Proof.
  intros H Hmode Hscale Hinteger Hfactor Hr Hb.
  upload H Hr; read Hmode; read Hscale; injection Hb as <-.
  all: match goal with
       | Hi : integer ?n = Some _ |- _ =>
           destruct n as [z safe|text]; [injection Hi as ->|discriminate Hi]
       end.
  all: unfold appendOptions.
  all: match goal with
       | |- context [removeMetadata ?o] =>
           destruct (truthy (outputFormat o)), (removeMetadata o) as [[|]|]
       end.
  all: destruct Hfactor as [-> | ->]; cbn; repeat split.
Qed.

(** C5. In custom-dimensions mode the upload form has the fields
    [customWidth] and [customHeight], each holding [String()] of the
    parameter read for the item, which is the decimal numeral of the
    parameter when that is a safe integer, and [objectFit], the parameter
    as it is; it has no [scale] field. *)
Theorem customDimensions_mode_form i w r w' cs requestOptions response form :
  processItem this i w = (r, w', cs) ->
  call_getNodeParameter p_resizeMode i (Returned "customDimensions") ∈ cs ->
  call_httpRequest AsUpscaleResponse requestOptions response ∈ cs ->
  body requestOptions = Some form ->
  exists customWidth customHeight objectFit,
    call_getNodeParameter p_customWidth i (Returned customWidth) ∈ cs /\
    call_getNodeParameter p_customHeight i (Returned customHeight) ∈ cs /\
    call_getNodeParameter p_objectFit i (Returned objectFit) ∈ cs /\
    fieldValues "customWidth" form = [TextValue (String_ customWidth)] /\
    fieldValues "customHeight" form = [TextValue (String_ customHeight)] /\
    fieldValues "objectFit" form = [TextValue objectFit] /\
    (forall width, integer customWidth = Some width ->
       fieldValues "customWidth" form
         = [TextValue (NilZero.string_of_int (Z.to_int width))] /\
       option_map Z.of_int
         (NilZero.int_of_string (NilZero.string_of_int (Z.to_int width))) = Some width) /\
    (forall height, integer customHeight = Some height ->
       fieldValues "customHeight" form
         = [TextValue (NilZero.string_of_int (Z.to_int height))] /\
       option_map Z.of_int
         (NilZero.int_of_string (NilZero.string_of_int (Z.to_int height))) = Some height) /\
    hasField "scale" form = false.
Proof.
  intros H Hmode Hr Hb.
  upload H Hr; read Hmode; injection Hb as <-.
  all: do 3 eexists.
  all: split; [apply (list_elem_of_lookup_2 _ 6); reflexivity|].
  all: split; [apply (list_elem_of_lookup_2 _ 7); reflexivity|].
  all: split; [apply (list_elem_of_lookup_2 _ 8); reflexivity|].
  all: unfold appendOptions.
  all: match goal with
       | |- context [removeMetadata ?o] =>
           destruct (truthy (outputFormat o)), (removeMetadata o) as [[|]|]
       end.
  all: cbn; split_and!; try reflexivity.
  all: intros z Hz;
    match type of Hz with
    | integer ?n = Some _ =>
        destruct n as [z' safe|text]; [injection Hz as ->|discriminate Hz]
    end;
    split; [reflexivity|apply decimal_numeral].
Qed.

End Form.

Lemma removeMetadata_field_witness :
  let form :=
    [{| field_name := "image";
        field_value := FileValue Mock.FAKE_PNG "photo.png" "image/png" |};
     {| field_name := "scale"; field_value := TextValue "2" |};
     {| field_name := "removeMetadata"; field_value := TextValue "0" |}] in
  fieldValues "removeMetadata" form = [TextValue "0"] /\
  (hasField "removeMetadata" form = true <-> Some false <> None).
Proof.
  intros form.
  eapply (removeMetadata_field
            (Mock.createMockExecuteFunctions
               (Mock.withParams
                  (Mock.withOptions
                     {| outputFormat := None;
                        removeMetadata := Some false;
                        outputBinaryPropertyName := None |})))
            0 0 _ _ _
            {| outputFormat := None;
               removeMetadata := Some false;
               outputBinaryPropertyName := None |}).
  - reflexivity.
  - apply (list_elem_of_lookup_2 _ 2). reflexivity.
  - apply (list_elem_of_lookup_2 _ 7). reflexivity.
  - reflexivity.
Defined.

Lemma scale_mode_form_witness :
  let form :=
    [{| field_name := "image";
        field_value := FileValue Mock.FAKE_PNG "photo.png" "image/png" |};
     {| field_name := "scale"; field_value := TextValue "2" |}] in
  fieldValues "scale" form = [TextValue "2"] /\
  hasField "customWidth" form = false /\
  hasField "customHeight" form = false /\
  hasField "objectFit" form = false.
Proof.
  intros form.
  eapply (scale_mode_form
            (Mock.createMockExecuteFunctions (Mock.withParams Mock.defaults))
            0 0 _ _ _ (SafeInteger 2 I) 2%Z).
  - reflexivity.
  - apply (list_elem_of_lookup_2 _ 1). reflexivity.
  - apply (list_elem_of_lookup_2 _ 6). reflexivity.
  - reflexivity.
  - left. reflexivity.
  - apply (list_elem_of_lookup_2 _ 7). reflexivity.
  - reflexivity.
Defined.

Lemma customDimensions_mode_form_witness :
  let this :=
    Mock.createMockExecuteFunctions
      (Mock.withParams (Mock.withResizeMode "customDimensions")) in
  let form :=
    [{| field_name := "image";
        field_value := FileValue Mock.FAKE_PNG "photo.png" "image/png" |};
     {| field_name := "customWidth"; field_value := TextValue "3840" |};
     {| field_name := "customHeight"; field_value := TextValue "2160" |};
     {| field_name := "objectFit"; field_value := TextValue "contain" |}] in
  exists customWidth customHeight objectFit,
    call_getNodeParameter p_customWidth 0 (Returned customWidth)
      ∈ snd (processItem this 0 0) /\
    call_getNodeParameter p_customHeight 0 (Returned customHeight)
      ∈ snd (processItem this 0 0) /\
    call_getNodeParameter p_objectFit 0 (Returned objectFit)
      ∈ snd (processItem this 0 0) /\
    fieldValues "customWidth" form = [TextValue (String_ customWidth)] /\
    fieldValues "customHeight" form = [TextValue (String_ customHeight)] /\
    fieldValues "objectFit" form = [TextValue objectFit] /\
    (forall width, integer customWidth = Some width ->
       fieldValues "customWidth" form
         = [TextValue (NilZero.string_of_int (Z.to_int width))] /\
       option_map Z.of_int
         (NilZero.int_of_string (NilZero.string_of_int (Z.to_int width))) = Some width) /\
    (forall height, integer customHeight = Some height ->
       fieldValues "customHeight" form
         = [TextValue (NilZero.string_of_int (Z.to_int height))] /\
       option_map Z.of_int
         (NilZero.int_of_string (NilZero.string_of_int (Z.to_int height))) = Some height) /\
    hasField "scale" form = false.
Proof.
  intros this form.
  eapply (customDimensions_mode_form this 0 0).
  - reflexivity.
  - apply (list_elem_of_lookup_2 _ 1). reflexivity.
  - apply (list_elem_of_lookup_2 _ 9). reflexivity.
  - reflexivity.
Defined.

(** ** Any mode but ['scale'] *)

Section OtherModes.
Context {W : Type} (this : IExecuteFunctions W).

(** C10. When the [resizeMode] read for the item is any string other than
    ['scale'], the item takes the [else] branch: [scale] is never read; once
    the credentials have been obtained [customWidth] is read; an upload
    request carries the three fields [customWidth], [customHeight] and
    [objectFit], holding [String()] of the two numbers read (their decimal
    numerals when they are safe integers) and the [objectFit] read; and the
    item does not fail unless a call of the context throws or returns an
    ill-shaped response. *)
Theorem other_mode_takes_custom_branch i w r w' cs resizeMode :
  processItem this i w = (r, w', cs) ->
  call_getNodeParameter p_resizeMode i (Returned resizeMode) ∈ cs ->
  resizeMode <> "scale" ->
  (forall j r0, call_getNodeParameter p_scale j r0 ∉ cs) /\
  (forall credentials,
      call_getCredentials "upscaleImgApi" (Returned credentials) ∈ cs ->
      exists r0, call_getNodeParameter p_customWidth i r0 ∈ cs) /\
  (forall requestOptions response,
      call_httpRequest AsUpscaleResponse requestOptions response ∈ cs ->
      exists customWidth customHeight objectFit form,
        call_getNodeParameter p_customWidth i (Returned customWidth) ∈ cs /\
        call_getNodeParameter p_customHeight i (Returned customHeight) ∈ cs /\
        call_getNodeParameter p_objectFit i (Returned objectFit) ∈ cs /\
        body requestOptions = Some form /\
        fieldValues "customWidth" form = [TextValue (String_ customWidth)] /\
        fieldValues "customHeight" form = [TextValue (String_ customHeight)] /\
        fieldValues "objectFit" form = [TextValue objectFit] /\
        (forall width, integer customWidth = Some width ->
           fieldValues "customWidth" form
             = [TextValue (NilZero.string_of_int (Z.to_int width))]) /\
        (forall height, integer customHeight = Some height ->
           fieldValues "customHeight" form
             = [TextValue (NilZero.string_of_int (Z.to_int height))]) /\
        hasField "scale" form = false) /\
  ((forall c, c ∈ cs -> failed c = false) ->
   exists entry requestOptions response,
     r = Returned entry /\
     call_httpRequest AsUpscaleResponse requestOptions (Returned (WellShaped response))
       ∈ cs).
Proof.
  intros H Hmode Hother.
  split_and!.
  - intros j r0 Hscale. run H; read Hmode; member Hscale.
  - intros credentials Hcred. run H; read Hmode; member Hcred.
    all: eexists; apply (list_elem_of_lookup_2 _ 6); reflexivity.
  - intros requestOptions response Hr. upload H Hr; read Hmode.
    all: do 4 eexists.
    all: split; [apply (list_elem_of_lookup_2 _ 6); reflexivity|].
    all: split; [apply (list_elem_of_lookup_2 _ 7); reflexivity|].
    all: split; [apply (list_elem_of_lookup_2 _ 8); reflexivity|].
    all: split; [reflexivity|].
    all: unfold appendOptions.
    all: match goal with
         | |- context [removeMetadata ?o] =>
             destruct (truthy (outputFormat o)), (removeMetadata o) as [[|]|]
         end.
    all: cbn; split_and!; try reflexivity.
    all: intros z Hz;
      match type of Hz with
      | integer ?n = Some _ =>
          destruct n as [z' safe|text]; [injection Hz as ->|discriminate Hz]
      end;
      reflexivity.
  - intros Hquiet.
    assert (Hnone : existsb failed cs = false).
    { apply not_true_is_false. intros (c & Hc & Hfailed)%existsb_exists.
      apply list_elem_of_In in Hc. rewrite (Hquiet c Hc) in Hfailed. discriminate. }
    destruct r as [entry|error].
    2: { apply processItem_thrown in H. congruence. }
    clear Hquiet Hnone. run H; read Hmode.
    do 3 eexists. split; [reflexivity|].
    apply (list_elem_of_lookup_2 _ 9). reflexivity.
Qed.

End OtherModes.

Lemma other_mode_takes_custom_branch_witness :
  let this :=
    Mock.createMockExecuteFunctions (Mock.withParams (Mock.withResizeMode "fit")) in
  let cs := snd (processItem this 0 0) in
  (forall j r0, call_getNodeParameter p_scale j r0 ∉ cs) /\
  (forall requestOptions response,
      call_httpRequest AsUpscaleResponse requestOptions response ∈ cs ->
      exists customWidth customHeight objectFit form,
        call_getNodeParameter p_customWidth 0 (Returned customWidth) ∈ cs /\
        call_getNodeParameter p_customHeight 0 (Returned customHeight) ∈ cs /\
        call_getNodeParameter p_objectFit 0 (Returned objectFit) ∈ cs /\
        body requestOptions = Some form /\
        fieldValues "customWidth" form = [TextValue (String_ customWidth)] /\
        fieldValues "customHeight" form = [TextValue (String_ customHeight)] /\
        fieldValues "objectFit" form = [TextValue objectFit] /\
        (forall width, integer customWidth = Some width ->
           fieldValues "customWidth" form
             = [TextValue (NilZero.string_of_int (Z.to_int width))]) /\
        (forall height, integer customHeight = Some height ->
           fieldValues "customHeight" form
             = [TextValue (NilZero.string_of_int (Z.to_int height))]) /\
        hasField "scale" form = false).
Proof.
  intros this cs.
  destruct (other_mode_takes_custom_branch this 0 0 _ _ _ "fit" eq_refl)
    as (Hscale & _ & Hform & _).
  - apply (list_elem_of_lookup_2 _ 1). reflexivity.
  - discriminate.
  - split; [exact Hscale | exact Hform].
Defined.

(** ** The image part *)

Section ImagePart.
Context {W : Type} (this : IExecuteFunctions W).

(** C8 (amended). The [image] field of the upload form is appended once,
    with the buffer read for the item and the options [{filename,
    contentType}]: [filename] is the attachment's [fileName], or
    [image.png] when that is [undefined] or the empty string; [contentType]
    is the attachment's [mimeType], or [image/png] when that is [undefined]
    or the empty string.  (What form-data writes into the part from these
    options is the library's business.) *)
Theorem image_part_defaults i w r w' cs propertyName binaryData
    requestOptions response form :
  processItem this i w = (r, w', cs) ->
  call_assertBinaryData i propertyName (Returned binaryData) ∈ cs ->
  call_httpRequest AsUpscaleResponse requestOptions response ∈ cs ->
  body requestOptions = Some form ->
  exists binaryBuffer,
    call_getBinaryDataBuffer i propertyName (Returned binaryBuffer) ∈ cs /\
    fieldValues "image" form =
      [FileValue binaryBuffer
         match bin_fileName binaryData with
         | None | Some "" => "image.png"
         | Some fileName => fileName
         end
         match bin_mimeType binaryData with
         | None | Some "" => "image/png"
         | Some mimeType => mimeType
         end].
Proof.
  intros H Hbin Hr Hb.
  upload H Hr; member Hbin; simplify_eq; injection Hb as <-.
  all: eexists; split; [apply (list_elem_of_lookup_2 _ 4); reflexivity|].
  all: unfold appendOptions, orElse.
  all: match goal with
       | |- context [removeMetadata ?o] =>
           destruct (truthy (outputFormat o)), (removeMetadata o) as [[|]|]
       end.
  all: reflexivity.
Qed.

End ImagePart.

Lemma image_part_defaults_witness :
  let this := Mock.createMockExecuteFunctions (Mock.withBinary None (Some "image/jpeg")) in
  let form :=
    [{| field_name := "image";
        field_value := FileValue Mock.FAKE_PNG "image.png" "image/jpeg" |};
     {| field_name := "scale"; field_value := TextValue "2" |}] in
  exists binaryBuffer,
    call_getBinaryDataBuffer 0 "data" (Returned binaryBuffer) ∈ snd (processItem this 0 0) /\
    fieldValues "image" form = [FileValue binaryBuffer "image.png" "image/jpeg"].
Proof.
  intros this form.
  eapply (image_part_defaults this 0 0 _ _ _ "data"
            {| bin_data := "iVBORw0KGgo=";
               bin_mimeType := Some "image/jpeg";
               bin_fileName := None |}).
  - reflexivity.
  - apply (list_elem_of_lookup_2 _ 3). reflexivity.
  - apply (list_elem_of_lookup_2 _ 7). reflexivity.
  - reflexivity.
Defined.

(** C8 as stated fails: an attachment whose [fileName] is the empty string
    provides a file name, and the [image] field is appended with
    [filename: 'image.png']. *)
Lemma provided_empty_fileName_not_used :
  ~ (forall (this : IExecuteFunctions nat) i w r w' cs propertyName binaryData
            requestOptions response form binaryBuffer fileName mimeType,
        processItem this i w = (r, w', cs) ->
        call_assertBinaryData i propertyName (Returned binaryData) ∈ cs ->
        call_httpRequest AsUpscaleResponse requestOptions response ∈ cs ->
        body requestOptions = Some form ->
        fieldValues "image" form = [FileValue binaryBuffer fileName mimeType] ->
        fileName = default "image.png" (bin_fileName binaryData) /\
        mimeType = default "image/png" (bin_mimeType binaryData)).
Proof.
  intros Hclaim.
  pose (this := Mock.createMockExecuteFunctions (Mock.withBinary (Some "") (Some "image/png"))).
  pose (form :=
    [{| field_name := "image";
        field_value := FileValue Mock.FAKE_PNG "image.png" "image/png" |};
     {| field_name := "scale"; field_value := TextValue "2" |}]).
  destruct (Hclaim this 0 0 _ _ _ "data"
              {| bin_data := "iVBORw0KGgo=";
                 bin_mimeType := Some "image/png";
                 bin_fileName := Some "" |}
              {| method := "POST";
                 url := "https://upscaleimg.app/api/v1/upscale";
                 headers := [("Authorization", "Bearer test-api-key-123")];
                 body := Some form;
                 encoding := None |}
              (Returned (WellShaped Mock.API_RESPONSE))
              form Mock.FAKE_PNG "image.png" "image/png" eq_refl) as [Hname _].
  - apply (list_elem_of_lookup_2 _ 3). reflexivity.
  - apply (list_elem_of_lookup_2 _ 7). reflexivity.
  - reflexivity.
  - reflexivity.
  - discriminate Hname.
Qed.

(** ** The file name of the result *)

Lemma append_String c s t : String c s +:+ t = String c (s +:+ t).
Proof. reflexivity. Qed.

Lemma noDot_dot s ext : noDot (s +:+ String "." ext) = false.
Proof.
  induction s as [|c s IH]; [reflexivity|].
  rewrite append_String. cbn [noDot]. rewrite IH. by destruct (Ascii.eqb c ".").
Qed.

(** A trailing extension (a dot and one or more characters without a dot)
    is removed. *)
Lemma baseName_extension base ext :
  ext <> "" -> noDot ext = true -> baseName (base +:+ String "." ext) = base.
Proof.
  intros Hext Hdot. induction base as [|c base IH].
  - destruct ext as [|e ext]; [done|].
    change (baseName (String "." (String e ext)) = ""). unfold baseName, extensionAt.
    by rewrite Hdot.
  - rewrite append_String. cbn [baseName]. rewrite IH.
    replace (extensionAt (String c (base +:+ String "." ext))) with false; [done|].
    cbn. destruct (base +:+ String "." ext) as [|c' rest] eqn:Hrest.
    + by destruct base.
    + rewrite <- Hrest, noDot_dot. by rewrite andb_false_r.
Qed.

(** A name without a trailing extension is kept as it is. *)
Lemma baseName_no_extension fileName :
  (forall base ext, fileName = base +:+ String "." ext -> ext = "" \/ noDot ext = false) ->
  baseName fileName = fileName.
Proof.
  induction fileName as [|c rest IH]; intros Hno; [reflexivity|].
  cbn [baseName].
  destruct (extensionAt (String c rest)) eqn:Hat.
  - destruct rest as [|c' rest']; [discriminate|].
    cbn in Hat. apply andb_prop in Hat as [Hc Hrest].
    apply Ascii.eqb_eq in Hc as ->.
    destruct (Hno "" (String c' rest') eq_refl) as [?|Hdot]; [discriminate|].
    cbn in Hdot. congruence.
  - f_equal. apply IH. intros base ext ->.
    apply (Hno (String c base) ext). reflexivity.
Qed.

(** ** Successful items *)

Section Success.
Context {W : Type} (this : IExecuteFunctions W).

(** C6. The entry of a successful item has [json.original] equal to the
    [original] of the upload response, and [json.result] is an object with
    exactly the keys [size], [width], [height], [mimeType] and [fileExt],
    holding the values of the response's [result]; it has no [url] key. *)
Theorem json_of_successful_item i w entry w' cs requestOptions response :
  processItem this i w = (Returned entry, w', cs) ->
  call_httpRequest AsUpscaleResponse requestOptions (Returned (WellShaped response)) ∈ cs ->
  keys (json entry) = ["original"; "result"] /\
  prop "original" (json entry) = Some (original response) /\
  exists res,
    prop "result" (json entry) = Some res /\
    keys res = ["size"; "width"; "height"; "mimeType"; "fileExt"] /\
    prop "size" res = Some (JNumber (res_size (result response))) /\
    prop "width" res = Some (JNumber (res_width (result response))) /\
    prop "height" res = Some (JNumber (res_height (result response))) /\
    prop "mimeType" res = Some (JString (res_mimeType (result response))) /\
    prop "fileExt" res = Some (JString (res_fileExt (result response))) /\
    prop "url" res = None.
Proof.
  intros H Hr.
  run H; member Hr; apply call_httpRequest_inj in Hr as [_ [= ->]].
  all: cbn; split_and!; try reflexivity.
  all: eexists; split_and!; reflexivity.
Qed.

(** C7. For a successful item, the file name handed to [prepareBinaryData],
    which makes the attachment of the entry, is the base name of the
    resolved input file name, followed by [_upscaled.] and the [fileExt] of
    the response's [result].  The resolved name is the [fileName] of the
    input attachment, or [image.png] when that is [undefined] or empty; the
    base name is the resolved name without its trailing extension, if it
    has one; it is [image] when the input attachment has no file name. *)
Theorem output_file_name i w entry w' cs propertyName binaryData
    requestOptions response :
  processItem this i w = (Returned entry, w', cs) ->
  call_assertBinaryData i propertyName (Returned binaryData) ∈ cs ->
  call_httpRequest AsUpscaleResponse requestOptions (Returned (WellShaped response)) ∈ cs ->
  let fileName :=
    match bin_fileName binaryData with
    | None | Some "" => "image.png"
    | Some name => name
    end in
  let outputFileName :=
    baseName fileName +:+ "_upscaled." +:+ res_fileExt (result response) in
  (exists imageBuffer binaryOutput outputBinaryPropertyName,
      call_prepareBinaryData imageBuffer outputFileName
        (res_mimeType (result response)) (Returned binaryOutput) ∈ cs /\
      binary entry = Some {[ outputBinaryPropertyName := binaryOutput ]}) /\
  (forall buffer filePath mimeType r,
      call_prepareBinaryData buffer filePath mimeType r ∈ cs ->
      filePath = outputFileName) /\
  (forall base ext,
      fileName = base +:+ String "." ext -> ext <> "" -> noDot ext = true ->
      outputFileName = base +:+ "_upscaled." +:+ res_fileExt (result response)) /\
  ((forall base ext,
       fileName = base +:+ String "." ext -> ext = "" \/ noDot ext = false) ->
   outputFileName = fileName +:+ "_upscaled." +:+ res_fileExt (result response)) /\
  (bin_fileName binaryData = None ->
   outputFileName = "image_upscaled." +:+ res_fileExt (result response)).
Proof.
  intros H Hbin Hr fileName outputFileName.
  assert (Hname : fileName = orElse (bin_fileName binaryData) "image.png") by done.
  split_and!.
  - subst outputFileName. rewrite Hname. clear Hname fileName.
    run H; member Hbin; member Hr; apply call_httpRequest_inj in Hr as [_ [= ->]].
    all: simplify_eq.
    + do 3 eexists. split; [apply (list_elem_of_lookup_2 _ 9); reflexivity|reflexivity].
    + do 3 eexists. split; [apply (list_elem_of_lookup_2 _ 11); reflexivity|reflexivity].
  - intros buffer filePath mimeType r Hprep.
    subst outputFileName. rewrite Hname. clear Hname fileName.
    run H; member Hbin; member Hr; apply call_httpRequest_inj in Hr as [_ [= ->]].
    all: member Hprep; by simplify_eq.
  - intros base ext Hsplit Hext Hdot. subst outputFileName.
    by rewrite Hsplit, baseName_extension.
  - intros Hno. subst outputFileName. by rewrite baseName_no_extension.
  - intros Hnone. subst outputFileName fileName. by rewrite Hnone.
Qed.

(** C9 (amended). The entry of a successful item has one binary property,
    holding the attachment [prepareBinaryData] returned: its key is
    [options.outputBinaryPropertyName] when that is a non-empty string, and
    [data] when it is [undefined] or empty.  So the key [data] is absent
    exactly when the option is a non-empty string other than [data]. *)
Theorem output_binary_property i w entry w' cs options :
  processItem this i w = (Returned entry, w', cs) ->
  call_getNodeParameter p_options i (Returned options) ∈ cs ->
  let key :=
    match outputBinaryPropertyName options with
    | None | Some "" => "data"
    | Some name => name
    end in
  exists (m : gmap string IBinaryData) binaryOutput,
    binary entry = Some m /\
    m !! key = Some binaryOutput /\
    (forall k, k <> key -> m !! k = None) /\
    (m !! "data" = None <-> key <> "data") /\
    exists buffer filePath mimeType,
      call_prepareBinaryData buffer filePath mimeType (Returned binaryOutput) ∈ cs.
Proof.
  intros H Ho key. subst key.
  run H; read Ho.
  all: match goal with
       | |- context [outputBinaryPropertyName ?o] =>
           change (match outputBinaryPropertyName o with
                   | None | Some "" => "data"
                   | Some name => name
                   end) with (orElse (outputBinaryPropertyName o) "data");
           generalize (orElse (outputBinaryPropertyName o) "data"); intros key
       end.
  all: eexists _, _; split; [reflexivity|].
  all: split; [apply lookup_singleton_eq|].
  all: split; [intros k Hk; by apply lookup_singleton_ne|].
  all: split.
  all: try (split; [intros Hnone Heq; rewrite Heq, lookup_singleton_eq in Hnone; discriminate
                   |intros Hne; by apply lookup_singleton_ne]).
  - do 3 eexists. apply (list_elem_of_lookup_2 _ 9). reflexivity.
  - do 3 eexists. apply (list_elem_of_lookup_2 _ 11). reflexivity.
Qed.

End Success.

Lemma json_of_successful_item_witness :
  let this := Mock.createMockExecuteFunctions (Mock.withParams Mock.defaults) in
  let entry :=
    match processItem this 0 0 with
    | (Returned entry, _, _) => entry
    | _ => Mock.inputItem ""
    end in
  keys (json entry) = ["original"; "result"] /\
  prop "original" (json entry) = Some (original Mock.API_RESPONSE) /\
  exists res,
    prop "result" (json entry) = Some res /\
    keys res = ["size"; "width"; "height"; "mimeType"; "fileExt"] /\
    prop "size" res = Some (JNumber 32) /\
    prop "width" res = Some (JNumber 200) /\
    prop "height" res = Some (JNumber 200) /\
    prop "mimeType" res = Some (JString "image/webp") /\
    prop "fileExt" res = Some (JString "webp") /\
    prop "url" res = None.
Proof.
  intros this entry.
  eapply (json_of_successful_item this 0 0 entry _ _ _ Mock.API_RESPONSE).
  - reflexivity.
  - apply (list_elem_of_lookup_2 _ 7). reflexivity.
Defined.

Lemma output_file_name_witness :
  let request :=
    fun fileName =>
      {| method := "POST";
         url := "https://upscaleimg.app/api/v1/upscale";
         headers := [("Authorization", "Bearer test-api-key-123")];
         body :=
           Some
             [{| field_name := "image";
                 field_value := FileValue Mock.FAKE_PNG fileName "image/png" |};
              {| field_name := "scale"; field_value := TextValue "2" |}];
         encoding := None |} in
  let named :=
    Mock.createMockExecuteFunctions
      (Mock.withBinary (Some "photo.png") (Some "image/png")) in
  let unnamed :=
    Mock.createMockExecuteFunctions (Mock.withBinary None (Some "image/png")) in
  (exists imageBuffer binaryOutput outputBinaryPropertyName,
      call_prepareBinaryData imageBuffer "photo_upscaled.webp" "image/webp"
        (Returned binaryOutput) ∈ snd (processItem named 0 0) /\
      binary (match processItem named 0 0 with
              | (Returned entry, _, _) => entry
              | _ => Mock.inputItem ""
              end) = Some {[ outputBinaryPropertyName := binaryOutput ]}) /\
  (exists imageBuffer binaryOutput outputBinaryPropertyName,
      call_prepareBinaryData imageBuffer "image_upscaled.webp" "image/webp"
        (Returned binaryOutput) ∈ snd (processItem unnamed 0 0) /\
      binary (match processItem unnamed 0 0 with
              | (Returned entry, _, _) => entry
              | _ => Mock.inputItem ""
              end) = Some {[ outputBinaryPropertyName := binaryOutput ]}).
Proof.
  intros request named unnamed. split.
  - destruct (output_file_name named 0 0 _ 2 (snd (processItem named 0 0)) "data"
                {| bin_data := "iVBORw0KGgo=";
                   bin_mimeType := Some "image/png";
                   bin_fileName := Some "photo.png" |}
                (request "photo.png") Mock.API_RESPONSE eq_refl)
      as (Hcall & _).
    + apply (list_elem_of_lookup_2 _ 3). reflexivity.
    + apply (list_elem_of_lookup_2 _ 7). reflexivity.
    + exact Hcall.
  - destruct (output_file_name unnamed 0 0 _ 2 (snd (processItem unnamed 0 0)) "data"
                {| bin_data := "iVBORw0KGgo=";
                   bin_mimeType := Some "image/png";
                   bin_fileName := None |}
                (request "image.png") Mock.API_RESPONSE eq_refl)
      as (Hcall & _).
    + apply (list_elem_of_lookup_2 _ 3). reflexivity.
    + apply (list_elem_of_lookup_2 _ 7). reflexivity.
    + exact Hcall.
Defined.

Lemma output_binary_property_witness :
  let options :=
    {| outputFormat := None;
       removeMetadata := None;
       outputBinaryPropertyName := Some "upscaledImage" |} in
  let this :=
    Mock.createMockExecuteFunctions (Mock.withParams (Mock.withOptions options)) in
  let entry :=
    match processItem this 0 0 with
    | (Returned entry, _, _) => entry
    | _ => Mock.inputItem ""
    end in
  exists (m : gmap string IBinaryData) binaryOutput,
    binary entry = Some m /\
    m !! "upscaledImage" = Some binaryOutput /\
    (forall k, k <> "upscaledImage" -> m !! k = None) /\
    (m !! "data" = None <-> "upscaledImage" <> "data") /\
    exists buffer filePath mimeType,
      call_prepareBinaryData buffer filePath mimeType (Returned binaryOutput)
        ∈ snd (processItem this 0 0).
Proof.
  intros options this entry.
  eapply (output_binary_property this 0 0 entry _ _ options).
  - reflexivity.
  - apply (list_elem_of_lookup_2 _ 2). reflexivity.
Defined.

(** C9 as stated fails: with [options.outputBinaryPropertyName = 'data'] the
    option is set and the attachment is stored under [data]. *)
Lemma outputBinaryPropertyName_data_keeps_data :
  ~ (forall (this : IExecuteFunctions nat) i w entry w' cs options name,
        processItem this i w = (Returned entry, w', cs) ->
        call_getNodeParameter p_options i (Returned options) ∈ cs ->
        outputBinaryPropertyName options = Some name ->
        exists (m : gmap string IBinaryData) binaryOutput,
          binary entry = Some m /\
          m !! name = Some binaryOutput /\
          m !! "data" = None).
Proof.
  intros Hclaim.
  pose (options :=
    {| outputFormat := None;
       removeMetadata := None;
       outputBinaryPropertyName := Some "data" |}).
  pose (this := Mock.createMockExecuteFunctions (Mock.withParams (Mock.withOptions options))).
  destruct (Hclaim this 0 0 _ _ _ options "data" eq_refl)
    as (m & binaryOutput & _ & Hstored & Habsent).
  - apply (list_elem_of_lookup_2 _ 2). reflexivity.
  - reflexivity.
  - congruence.
Qed.

(** * Further properties of [execute] *)

(** ** The calls of one item *)

Section ItemCalls.
Context {W : Type} (this : IExecuteFunctions W).

(** X1. An item fails exactly when a call of the context fails it, by
    throwing or by returning an ill-shaped response: a successful item has
    no such call in its transcript; a failed item throws the error of the
    last call of its transcript (the error thrown, or the [TypeError] of
    the ill-shaped response), and no call before that one failed. *)
Theorem item_fails_with_the_error_thrown i w :
  match processItem this i w with
  | (Returned _, _, cs) => existsb failed cs = false
  | (Thrown error, _, cs) =>
      last cs ≫= failure = Some error /\
      existsb failed (removelast cs) = false
  end.
Proof.
  destruct (processItem this i w) as [[r w'] cs] eqn:H.
  run H; repeat split.
Qed.

(** X2. The calls of an item follow one fixed order: three parameter reads,
    [assertBinaryData], [getBinaryDataBuffer], [getCredentials], the reads
    of the resize mode (one or three), the two requests and
    [prepareBinaryData].  A successful item makes all of them; a failed one
    stops after the call that failed it. *)
Theorem calls_follow_one_order i w :
  exists reads,
    (reads = 1 \/ reads = 3) /\
    let order :=
      ["getNodeParameter"; "getNodeParameter"; "getNodeParameter";
       "assertBinaryData"; "getBinaryDataBuffer"; "getCredentials"]
      ++ replicate reads "getNodeParameter"
      ++ ["httpRequest"; "httpRequest"; "prepareBinaryData"] in
    match processItem this i w with
    | (Returned _, _, cs) => map callName cs = order
    | (Thrown _, _, cs) => map callName cs `prefix_of` order
    end.
Proof.
  destruct (processItem this i w) as [[r w'] cs] eqn:H.
  run H.
  all: first
    [ exists 1; split; [by left|]; first [reflexivity | eexists; reflexivity]
    | exists 3; split; [by right|]; first [reflexivity | eexists; reflexivity] ].
Qed.

(** X3. An item sends at most two requests, the upload ([POST]) and then the
    download ([GET]); a successful item sends both. *)
Theorem requests_of_an_item i w :
  match processItem this i w with
  | (Returned _, _, cs) => map method (requests cs) = ["POST"; "GET"]
  | (Thrown _, _, cs) =>
      map method (requests cs) = [] \/
      map method (requests cs) = ["POST"] \/
      map method (requests cs) = ["POST"; "GET"]
  end.
Proof.
  destruct (processItem this i w) as [[r w'] cs] eqn:H.
  run H; cbn; auto.
Qed.

End ItemCalls.

(** ** The two requests *)

Section Requests.
Context {W : Type} (this : IExecuteFunctions W).

(** X4. Every upload is a [POST] to the upscale endpoint whose only header
    is [Authorization: Bearer <apiKey>], with the key of the credentials the
    item obtained; the item asks for no other credential type than
    [upscaleImgApi], the one the node declares and [UpscaleImgApi] defines. *)
Theorem upload_request_is_authorized i w r w' cs requestOptions response :
  processItem this i w = (r, w', cs) ->
  call_httpRequest AsUpscaleResponse requestOptions response ∈ cs ->
  (exists credentials form,
      call_getCredentials UpscaleImgApi.name (Returned credentials) ∈ cs /\
      requestOptions =
        {| method := "POST";
           url := "https://upscaleimg.app/api/v1/upscale";
           headers := [("Authorization", "Bearer " +:+ apiKey credentials)];
           body := Some form;
           encoding := None |}) /\
  (forall name r0, call_getCredentials name r0 ∈ cs -> name = UpscaleImgApi.name) /\
  (UpscaleImgApi.name, true) ∈ Description.credentials.
Proof.
  intros H Hr. split_and!.
  - upload H Hr.
    all: do 2 eexists; split; [apply (list_elem_of_lookup_2 _ 5); reflexivity|reflexivity].
  - intros name r0 Hcred. run H; member Hcred; by simplify_eq.
  - apply list_elem_of_here.
Qed.

(** X5. A download is sent only after an upload has returned a response,
    and it is a [GET] of that response's [result.url] with
    [encoding: 'arraybuffer'], without body or headers. *)
Theorem download_follows_upload i w r w' cs downloadOptions image :
  processItem this i w = (r, w', cs) ->
  call_httpRequest AsArrayBuffer downloadOptions image ∈ cs ->
  exists requestOptions response,
    call_httpRequest AsUpscaleResponse requestOptions (Returned (WellShaped response))
      ∈ cs /\
    downloadOptions =
      {| method := "GET";
         url := res_url (result response);
         headers := [];
         body := None;
         encoding := Some "arraybuffer" |}.
Proof.
  intros H Hd.
  run H; member Hd; apply call_httpRequest_inj in Hd as [-> _].
  all: do 2 eexists; split; [|reflexivity].
  all: first [ apply (list_elem_of_lookup_2 _ 7); reflexivity
             | apply (list_elem_of_lookup_2 _ 9); reflexivity ].
Qed.

(** X6. The buffer handed to [prepareBinaryData] is the one the download
    returned, and the MIME type is the [result.mimeType] of the upload
    response. *)
Theorem attachment_is_the_download i w r w' cs buffer filePath mimeType binaryOutput :
  processItem this i w = (r, w', cs) ->
  call_prepareBinaryData buffer filePath mimeType binaryOutput ∈ cs ->
  exists requestOptions response downloadOptions,
    call_httpRequest AsUpscaleResponse requestOptions (Returned (WellShaped response))
      ∈ cs /\
    call_httpRequest AsArrayBuffer downloadOptions (Returned (WellShaped buffer)) ∈ cs /\
    mimeType = res_mimeType (result response).
Proof.
  intros H Hp.
  run H; member Hp; simplify_eq.
  all: do 3 eexists; split_and!; [| |reflexivity].
  all: first [ apply (list_elem_of_lookup_2 _ 7); reflexivity
             | apply (list_elem_of_lookup_2 _ 8); reflexivity
             | apply (list_elem_of_lookup_2 _ 9); reflexivity
             | apply (list_elem_of_lookup_2 _ 10); reflexivity ].
Qed.

(** X7. When [assertBinaryData] throws, the item fails with that error
    without reading the buffer, asking for credentials or sending a
    request. *)
Theorem missing_binary_sends_nothing i w r w' cs propertyName error :
  processItem this i w = (r, w', cs) ->
  call_assertBinaryData i propertyName (Thrown error) ∈ cs ->
  r = Thrown error /\
  requests cs = [] /\
  map callName cs =
    ["getNodeParameter"; "getNodeParameter"; "getNodeParameter"; "assertBinaryData"].
Proof.
  intros H Hbin.
  run H; member Hbin; simplify_eq; repeat split.
Qed.

End Requests.

(** ** The whole form *)

Section WholeForm.
Context {W : Type} (this : IExecuteFunctions W).

(** X8. The upload form has an [outputFormat] field exactly when
    [options.outputFormat] is a non-empty string, and the field holds that
    string. *)
Theorem outputFormat_field i w r w' cs options requestOptions response form :
  processItem this i w = (r, w', cs) ->
  call_getNodeParameter p_options i (Returned options) ∈ cs ->
  call_httpRequest AsUpscaleResponse requestOptions response ∈ cs ->
  body requestOptions = Some form ->
  fieldValues "outputFormat" form =
    match outputFormat options with
    | None | Some "" => []
    | Some format => [TextValue format]
    end.
Proof.
  intros H Ho Hr Hb.
  upload H Hr; read Ho; injection Hb as <-.
  all: unfold appendOptions.
  all: match goal with
       | |- context [removeMetadata ?o] =>
           destruct (outputFormat o) as [[|c format]|], (removeMetadata o) as [[|]|]
       end.
  all: reflexivity.
Qed.

(** X9. The fields of the upload form, in order: [image] first, then the
    fields of the resize mode, then [outputFormat] and [removeMetadata] when
    they are sent; there is no other field and none twice. *)
Theorem form_field_names i w r w' cs resizeMode options requestOptions response form :
  processItem this i w = (r, w', cs) ->
  call_getNodeParameter p_resizeMode i (Returned resizeMode) ∈ cs ->
  call_getNodeParameter p_options i (Returned options) ∈ cs ->
  call_httpRequest AsUpscaleResponse requestOptions response ∈ cs ->
  body requestOptions = Some form ->
  map field_name form =
    ["image"]
    ++ (if String.eqb resizeMode "scale" then ["scale"]
        else ["customWidth"; "customHeight"; "objectFit"])
    ++ match outputFormat options with
       | None | Some "" => []
       | Some _ => ["outputFormat"]
       end
    ++ match removeMetadata options with
       | None => []
       | Some _ => ["removeMetadata"]
       end.
Proof.
  intros H Hm Ho Hr Hb.
  upload H Hr; read Hm; read Ho; injection Hb as <-.
  all: try match goal with
           | n : ?m <> "scale" |- _ =>
               apply String.eqb_neq in n; rewrite n
           end.
  all: unfold appendOptions.
  all: match goal with
       | |- context [removeMetadata ?o] =>
           destruct (outputFormat o) as [[|c format]|], (removeMetadata o) as [[|]|]
       end.
  all: reflexivity.
Qed.

(** X10. A successful item in mode [scale] or [customDimensions] reads the
    parameters the description declares for that mode (those without a
    [displayOptions.show.resizeMode] condition and those whose condition
    lists the mode), each once, and no other. *)
Theorem reads_the_declared_parameters i w entry w' cs resizeMode :
  processItem this i w = (Returned entry, w', cs) ->
  call_getNodeParameter p_resizeMode i (Returned resizeMode) ∈ cs ->
  resizeMode = "scale" \/ resizeMode = "customDimensions" ->
  map paramName (parametersRead cs) ≡ₚ Description.declaredFor resizeMode /\
  NoDup (parametersRead cs).
Proof.
  intros H Hm Hmode.
  run H; read Hm; destruct Hmode as [Hmode|Hmode]; subst; try done.
  all: split; [|apply (bool_decide_unpack _); reflexivity].
  - cbn. do 2 apply perm_skip. apply perm_swap.
  - cbn. do 2 apply perm_skip.
    apply (Permutation_cons_append ["customWidth"; "customHeight"; "objectFit"] "options").
Qed.

End WholeForm.

Lemma upload_request_is_authorized_witness :
  let this := Mock.createMockExecuteFunctions (Mock.withParams Mock.defaults) in
  let cs := snd (processItem this 0 0) in
  exists credentials form,
    call_getCredentials "upscaleImgApi" (Returned credentials) ∈ cs /\
    requests cs !! 0 =
      Some {| method := "POST";
              url := "https://upscaleimg.app/api/v1/upscale";
              headers := [("Authorization", "Bearer " +:+ apiKey credentials)];
              body := Some form;
              encoding := None |}.
Proof.
  intros this cs.
  opose proof (upload_request_is_authorized this 0 0 _ _ _ _ _ _ _) as Hupload.
  - reflexivity.
  - apply (list_elem_of_lookup_2 _ 7). reflexivity.
  - destruct Hupload as [(credentials & form & Hcredentials & Hrequest) _].
    exists credentials, form. split; [exact Hcredentials|].
    exact (f_equal Some Hrequest).
Defined.

Lemma download_follows_upload_witness :
  let this := Mock.createMockExecuteFunctions (Mock.withParams Mock.defaults) in
  let cs := snd (processItem this 0 0) in
  exists requestOptions response,
    call_httpRequest AsUpscaleResponse requestOptions (Returned (WellShaped response))
      ∈ cs /\
    requests cs !! 1 =
      Some {| method := "GET";
              url := res_url (result response);
              headers := [];
              body := None;
              encoding := Some "arraybuffer" |}.
Proof.
  intros this cs.
  opose proof (download_follows_upload this 0 0 _ _ _ _ _ _ _) as Hboth.
  - reflexivity.
  - apply (list_elem_of_lookup_2 _ 8). reflexivity.
  - destruct Hboth as (requestOptions & response & Hupload & Hdownload).
    exists requestOptions, response. split; [exact Hupload|].
    exact (f_equal Some Hdownload).
Defined.

Lemma attachment_is_the_download_witness :
  let this := Mock.createMockExecuteFunctions (Mock.withParams Mock.defaults) in
  let cs := snd (processItem this 0 0) in
  exists requestOptions response downloadOptions,
    call_httpRequest AsUpscaleResponse requestOptions (Returned (WellShaped response))
      ∈ cs /\
    call_httpRequest AsArrayBuffer downloadOptions
      (Returned (WellShaped Mock.DOWNLOADED_IMAGE)) ∈ cs /\
    "image/webp" = res_mimeType (result response).
Proof.
  intros this cs.
  eapply (attachment_is_the_download this 0 0 _ _ _
            Mock.DOWNLOADED_IMAGE "photo_upscaled.webp" "image/webp"
            (Returned Mock.MOCK_BINARY_OUTPUT)).
  - reflexivity.
  - apply (list_elem_of_lookup_2 _ 9). reflexivity.
Defined.

Lemma missing_binary_sends_nothing_witness :
  let this :=
    Mock.createMockExecuteFunctions
      {| Mock.params := Mock.defaults;
         Mock.continueOnFailFlag := true;
         Mock.items := [Mock.inputItem "photo.png"];
         Mock.httpRequestFail := false;
         Mock.assertBinaryDataFail := true;
         Mock.binaryFileName := Some "photo.png";
         Mock.binaryMimeType := Some "image/png" |} in
  fst (fst (processItem this 0 0)) = Thrown (Error "No binary data found") /\
  requests (snd (processItem this 0 0)) = [] /\
  map callName (snd (processItem this 0 0)) =
    ["getNodeParameter"; "getNodeParameter"; "getNodeParameter"; "assertBinaryData"].
Proof.
  intros this.
  eapply (missing_binary_sends_nothing this 0 0 _ _ _ "data").
  - reflexivity.
  - apply (list_elem_of_lookup_2 _ 3). reflexivity.
Defined.

Lemma outputFormat_field_witness :
  let form :=
    [{| field_name := "image";
        field_value := FileValue Mock.FAKE_PNG "photo.png" "image/png" |};
     {| field_name := "scale"; field_value := TextValue "2" |};
     {| field_name := "outputFormat"; field_value := TextValue "webp" |}] in
  fieldValues "outputFormat" form = [TextValue "webp"].
Proof.
  intros form.
  eapply (outputFormat_field
            (Mock.createMockExecuteFunctions
               (Mock.withParams
                  (Mock.withOptions
                     {| outputFormat := Some "webp";
                        removeMetadata := None;
                        outputBinaryPropertyName := None |})))
            0 0 _ _ _
            {| outputFormat := Some "webp";
               removeMetadata := None;
               outputBinaryPropertyName := None |}).
  - reflexivity.
  - apply (list_elem_of_lookup_2 _ 2). reflexivity.
  - apply (list_elem_of_lookup_2 _ 7). reflexivity.
  - reflexivity.
Defined.

Lemma form_field_names_witness :
  let form :=
    [{| field_name := "image";
        field_value := FileValue Mock.FAKE_PNG "photo.png" "image/png" |};
     {| field_name := "customWidth"; field_value := TextValue "3840" |};
     {| field_name := "customHeight"; field_value := TextValue "2160" |};
     {| field_name := "objectFit"; field_value := TextValue "contain" |}] in
  map field_name form = ["image"; "customWidth"; "customHeight"; "objectFit"].
Proof.
  intros form.
  eapply (form_field_names
            (Mock.createMockExecuteFunctions
               (Mock.withParams (Mock.withResizeMode "customDimensions")))
            0 0 _ _ _ "customDimensions" Mock.noOptions).
  - reflexivity.
  - apply (list_elem_of_lookup_2 _ 1). reflexivity.
  - apply (list_elem_of_lookup_2 _ 2). reflexivity.
  - apply (list_elem_of_lookup_2 _ 9). reflexivity.
  - reflexivity.
Defined.

Lemma reads_the_declared_parameters_witness :
  let this :=
    Mock.createMockExecuteFunctions
      (Mock.withParams (Mock.withResizeMode "customDimensions")) in
  let cs := snd (processItem this 0 0) in
  map paramName (parametersRead cs) ≡ₚ
    ["binaryPropertyName"; "resizeMode"; "customWidth"; "customHeight";
     "objectFit"; "options"] /\
  NoDup (parametersRead cs).
Proof.
  intros this cs.
  eapply (reads_the_declared_parameters this 0 0 _ _ _ "customDimensions").
  - reflexivity.
  - apply (list_elem_of_lookup_2 _ 1). reflexivity.
  - right. reflexivity.
Defined.

(** ** The run as a whole *)

(** [loop_cases Hrun] splits one iteration of [Hrun : loop ... (S n) ... = _]
    into its three courses: the item succeeds, it fails and the run goes
    on, it fails and the run is aborted. *)
Ltac loop_cases Hrun :=
  rewrite loop_S in Hrun;
  match type of Hrun with
  | context [processItem ?t ?i ?w] =>
      let Hitem := fresh "Hitem" in
      destruct (processItem t i w) as [[[?entry|?error] ?w1] ?c1] eqn:Hitem
  end;
  [ | match type of Hrun with
      | context [continueOnFail ?t ?w] =>
          let Hcontinue := fresh "Hcontinue" in
          destruct (continueOnFail t w) eqn:Hcontinue
      end ];
  try match type of Hrun with
      | context [loop ?t ?n ?i ?a ?w] =>
          let Hrest := fresh "Hrest" in
          destruct (loop t n i a w) as [[?r2 ?w2] ?c2] eqn:Hrest
      end;
  simplify_eq.

Section Run.
Context {W : Type} (this : IExecuteFunctions W).
Context (NodeOperationError_new : INode -> JsError -> nat -> JsError).

Lemma loop_returned n : forall i returnData w returned w' cs,
  loop this NodeOperationError_new n i returnData w = (Returned returned, w', cs) ->
  exists entries,
    returned = returnData ++ entries /\
    length entries = n /\
    forall j, j < n -> pairedItem <$> entries !! j = Some (Some {| item := i + j |}).
Proof.
  induction n as [|n IH]; intros i returnData w returned w' cs Hrun.
  - injection Hrun as <- <- <-. exists []. rewrite app_nil_r. split_and!; [done..|lia].
  - loop_cases Hrun.
    + destruct (IH _ _ _ _ _ _ Hrest) as (entries & -> & Hlen & Hpaired).
      exists (entry :: entries). split_and!; [by rewrite <- app_assoc|cbn; by rewrite Hlen|].
      intros [|j] Hj; cbn.
      * rewrite (processItem_pairedItem _ _ _ _ _ _ Hitem). by rewrite Nat.add_0_r.
      * rewrite Hpaired by lia. do 3 f_equal. lia.
    + destruct (IH _ _ _ _ _ _ Hrest) as (entries & -> & Hlen & Hpaired).
      exists (errorEntry error i :: entries).
      split_and!; [by rewrite <- app_assoc|cbn; by rewrite Hlen|].
      intros [|j] Hj; cbn.
      * by rewrite Nat.add_0_r.
      * rewrite Hpaired by lia. do 3 f_equal. lia.
Qed.

Lemma loop_thrown n : forall i returnData w e w' cs,
  loop this NodeOperationError_new n i returnData w = (Thrown e, w', cs) ->
  exists j error,
    e = NodeOperationError_new (getNode this w') error j /\
    i <= j < i + n /\
    continueOnFail this w' = false /\
    last cs ≫= failure = Some error.
Proof.
  induction n as [|n IH]; intros i returnData w e w' cs Hrun.
  - discriminate Hrun.
  - loop_cases Hrun.
    + destruct (IH _ _ _ _ _ _ Hrest) as (j & error & -> & Hj & Hoff & Hlast).
      exists j, error. split_and!; [done|lia..|done|].
      rewrite last_app. by destruct (last c2).
    + destruct (IH _ _ _ _ _ _ Hrest) as (j & error' & -> & Hj & Hoff & Hlast).
      exists j, error'. split_and!; [done|lia..|done|].
      rewrite last_app. by destruct (last c2).
    + exists i, error. split_and!; [done|lia..|done|].
      run Hitem; reflexivity.
Qed.

(** X11. Whenever [execute] returns, it returns one list with one entry per
    input item, the entry at position [i] having [pairedItem = {item: i}]:
    no entry is dropped, added or reordered, whatever the context does. *)
Theorem execute_returns_all_entries w :
  match execute this NodeOperationError_new w with
  | (Returned returned, _, _) =>
      exists returnData,
        returned = [returnData] /\
        length returnData = length (getInputData this w) /\
        forall i, i < length (getInputData this w) ->
          pairedItem <$> returnData !! i = Some (Some {| item := i |})
  | (Thrown _, _, _) => True
  end.
Proof.
  rewrite execute_loop.
  destruct (loop this NodeOperationError_new _ 0 [] w)
    as [[[returnData|e] w'] cs] eqn:Hloop; [|done].
  destruct (loop_returned _ _ _ _ _ _ _ Hloop) as (entries & -> & Hlen & Hpaired).
  exists entries. split_and!; [done..|].
  intros i Hi. by rewrite (Hpaired i Hi).
Qed.

(** X12. Whatever [execute] throws is what [new NodeOperationError(node,
    error, {itemIndex: i})] evaluates to, for the node of the context, the
    index [i] of an input item and the error the last call of the run
    failed the item with; [execute] throws only while continue-on-failure
    is off.  With the constructor of n8n-workflow, what it throws is
    always a [NodeOperationError]. *)
Theorem execute_throws_NodeOperationError w :
  match execute this NodeOperationError_new w with
  | (Returned _, _, _) => True
  | (Thrown e, w', cs) =>
      exists i error,
        e = NodeOperationError_new (getNode this w') error i /\
        i < length (getInputData this w) /\
        continueOnFail this w' = false /\
        last cs ≫= failure = Some error /\
        forall describe,
          NodeOperationError_new = NWorkflow.NodeOperationError_new describe ->
          isNodeOperationError e = true
  end.
Proof.
  rewrite execute_loop.
  destruct (loop this NodeOperationError_new _ 0 [] w)
    as [[[returnData|e] w'] cs] eqn:Hloop; [done|].
  destruct (loop_thrown _ _ _ _ _ _ _ Hloop) as (i & error & -> & Hi & Hoff & Hlast).
  exists i, error. split_and!; [done|lia|done..|].
  intros describe ->. by destruct error.
Qed.

End Run.

Section Counting.
Context {W : Type} (this : IExecuteFunctions W).
Context (NodeOperationError_new : INode -> JsError -> nat -> JsError).

Lemma requests_app c1 c2 : requests (c1 ++ c2) = requests c1 ++ requests c2.
Proof. apply omap_app. Qed.

Lemma loop_error_entries n : forall i returnData w returned w' cs,
  loop this NodeOperationError_new n i returnData w = (Returned returned, w', cs) ->
  length (List.filter isErrorEntry returned) =
  length (List.filter isErrorEntry returnData) + length (List.filter failed cs).
Proof.
  induction n as [|n IH]; intros i returnData w returned w' cs Hrun.
  - injection Hrun as <- <- <-. cbn. lia.
  - loop_cases Hrun.
    + rewrite (IH _ _ _ _ _ _ Hrest), !List.filter_app, !length_app.
      assert (isErrorEntry entry = false /\ List.filter failed c1 = []) as [He Hc]
        by (run Hitem; by split).
      cbn. rewrite He, Hc. cbn. lia.
    + rewrite (IH _ _ _ _ _ _ Hrest), !List.filter_app, !length_app.
      assert (length (List.filter failed c1) = 1) as Hc by (run Hitem; reflexivity).
      cbn. lia.
Qed.

(** X13. When [execute] returns, the entries of the form [{error: ...}] are
    as many as the calls of the context that failed an item during the run,
    by throwing or by returning an ill-shaped response: every failure is
    reported by exactly one entry, and no entry reports a failure that did
    not happen. *)
Theorem one_error_entry_per_failure w :
  match execute this NodeOperationError_new w with
  | (Returned returned, _, cs) =>
      length (List.filter isErrorEntry (concat returned)) =
      length (List.filter failed cs)
  | (Thrown _, _, _) => True
  end.
Proof.
  rewrite execute_loop.
  destruct (loop this NodeOperationError_new _ 0 [] w)
    as [[[returnData|e] w'] cs] eqn:Hloop; [|done].
  cbn. rewrite app_nil_r. by rewrite (loop_error_entries _ _ _ _ _ _ _ Hloop).
Qed.

Lemma loop_requests n : forall i returnData w r w' cs,
  loop this NodeOperationError_new n i returnData w = (r, w', cs) ->
  length (requests cs) <= 2 * n /\
  (existsb failed cs = false ->
   map method (requests cs) = mjoin (replicate n ["POST"; "GET"])).
Proof.
  induction n as [|n IH]; intros i returnData w r w' cs Hrun.
  - injection Hrun as <- <- <-. by split.
  - loop_cases Hrun.
    + destruct (IH _ _ _ _ _ _ Hrest) as [Hle Hall].
      assert (map method (requests c1) = ["POST"; "GET"]) as Hc by (run Hitem; reflexivity).
      rewrite requests_app, length_app, map_app, existsb_app.
      split.
      * apply (f_equal length) in Hc. rewrite length_map in Hc. cbn in Hc. lia.
      * intros [_ Hquiet]%orb_false_elim. by rewrite Hc, (Hall Hquiet).
    + destruct (IH _ _ _ _ _ _ Hrest) as [Hle Hall].
      assert (length (requests c1) <= 2 /\ existsb failed c1 = true) as [Hc Ht]
        by (run Hitem; split; cbn; (lia || reflexivity)).
      rewrite requests_app, length_app, existsb_app, Ht.
      split; [lia|done].
    + assert (length (requests cs) <= 2 /\ existsb failed cs = true) as [Hc Ht]
        by (run Hitem; split; cbn; (lia || reflexivity)).
      rewrite Ht. split; [lia|done].
Qed.

(** X14. A run sends at most two requests per input item, so no request is
    ever retried; a run in which no call of the context fails an item (none
    throws, none returns an ill-shaped response) sends exactly an upload and
    then a download for each item, in the order of the items. *)
Theorem no_request_is_retried w :
  match execute this NodeOperationError_new w with
  | (_, _, cs) =>
      length (requests cs) <= 2 * length (getInputData this w) /\
      (existsb failed cs = false ->
       map method (requests cs) =
         mjoin (replicate (length (getInputData this w)) ["POST"; "GET"]))
  end.
Proof.
  rewrite execute_loop.
  destruct (loop this NodeOperationError_new _ 0 [] w) as [[r w'] cs] eqn:Hloop.
  exact (loop_requests _ _ _ _ _ _ _ Hloop).
Qed.

Lemma loop_indices n : forall i returnData w r w' cs,
  loop this NodeOperationError_new n i returnData w = (r, w', cs) ->
  Forall (fun j => i <= j < i + n) (omap itemIndexOf cs) /\
  StronglySorted le (omap itemIndexOf cs).
Proof.
  assert (Hone : forall i w r w' cs,
    processItem this i w = (r, w', cs) ->
    Forall (eq i) (omap itemIndexOf cs)).
  { intros i w r w' cs H. run H; repeat constructor. }
  assert (Hsame : forall i l, Forall (eq i) l -> StronglySorted le l).
  { intros i l Hl. induction Hl as [|j l <- Hl IHl]; constructor; [done|].
    eapply Forall_impl; [exact Hl|]. intros ? <-. done. }
  induction n as [|n IH]; intros i returnData w r w' cs Hrun.
  - injection Hrun as <- <- <-. split; constructor.
  - loop_cases Hrun.
    all: try (destruct (IH _ _ _ _ _ _ Hrest) as [Hin Hsorted]).
    all: specialize (Hone _ _ _ _ _ Hitem).
    all: try rewrite omap_app.
    1,2: split;
      [ apply Forall_app; split;
        [ eapply Forall_impl; [exact Hone|]; intros ? <-; cbn; lia
        | eapply Forall_impl; [exact Hin|]; cbn; intros; lia ]
      | apply StronglySorted_app_2; [|by eapply Hsame|done];
        intros x1 x2 Hx1 Hx2;
        rewrite Forall_forall in Hone, Hin;
        specialize (Hone _ Hx1); specialize (Hin _ Hx2); cbn in Hin; lia ].
    split; [|by eapply Hsame].
    eapply Forall_impl; [exact Hone|]. intros ? <-. cbn. lia.
Qed.

(** X15. The context is asked about the items in input order, one item at a
    time: the item indices handed to [getNodeParameter], [assertBinaryData]
    and [getBinaryDataBuffer] during a run never decrease, and each is the
    index of an input item. *)
Theorem items_are_processed_in_order w :
  match execute this NodeOperationError_new w with
  | (_, _, cs) =>
      StronglySorted le (omap itemIndexOf cs) /\
      Forall (fun i => i < length (getInputData this w)) (omap itemIndexOf cs)
  end.
Proof.
  rewrite execute_loop.
  destruct (loop this NodeOperationError_new _ 0 [] w) as [[r w'] cs] eqn:Hloop.
  destruct (loop_indices _ _ _ _ _ _ _ Hloop) as [Hin Hsorted].
  split; [done|]. eapply Forall_impl; [exact Hin|]. cbn. intros; lia.
Qed.

(** X16. Without input items [execute] returns [[[]]] and calls nothing. *)
Theorem execute_without_items w :
  getInputData this w = [] ->
  execute this NodeOperationError_new w = (Returned [[]], w, []).
Proof.
  intros Hnone. rewrite execute_loop, Hnone. reflexivity.
Qed.

End Counting.

Lemma execute_without_items_witness :
  let this :=
    Mock.createMockExecuteFunctions
      {| Mock.params := Mock.defaults;
         Mock.continueOnFailFlag := false;
         Mock.items := [];
         Mock.httpRequestFail := true;
         Mock.assertBinaryDataFail := true;
         Mock.binaryFileName := None;
         Mock.binaryMimeType := None |} in
  execute this (NWorkflow.NodeOperationError_new message) 0 = (Returned [[]], 0, []).
Proof.
  intros this.
  exact (execute_without_items this (NWorkflow.NodeOperationError_new message) 0 eq_refl).
Defined.

(** ** The output file name *)

Lemma append_length s t : String.length (s +:+ t) = String.length s + String.length t.
Proof.
  induction s as [|c s IH]; [reflexivity|].
  rewrite append_String. cbn. by rewrite IH.
Qed.

Lemma baseName_shape fileName :
  baseName fileName = fileName \/
  exists ext,
    ext <> "" /\ noDot ext = true /\
    fileName = baseName fileName +:+ String "." ext.
Proof.
  induction fileName as [|c rest IH]; [by left|].
  cbn [baseName]. destruct (extensionAt (String c rest)) eqn:Hat.
  - right. destruct rest as [|c' rest']; [discriminate|].
    cbn in Hat. apply andb_prop in Hat as [Hc Hrest].
    apply Ascii.eqb_eq in Hc as ->.
    exists (String c' rest'). by split_and!.
  - destruct IH as [->|(ext & Hext & Hdot & Hrest)]; [by left|].
    right. exists ext. split_and!; [done..|].
    rewrite append_String. by rewrite <- Hrest.
Qed.

(** X17. [baseName] removes nothing but one trailing extension: its result
    is the file name itself, or the file name is the result followed by a
    dot and one or more characters none of which is a dot. *)
Theorem baseName_removes_one_extension fileName :
  (baseName fileName = fileName \/
   exists ext,
     ext <> "" /\ noDot ext = true /\
     fileName = baseName fileName +:+ String "." ext) /\
  String.length (baseName fileName) <= String.length fileName /\
  (baseName fileName = fileName <->
   forall base ext, fileName = base +:+ String "." ext -> ext = "" \/ noDot ext = false).
Proof.
  split_and!.
  - apply baseName_shape.
  - destruct (baseName_shape fileName) as [->|(ext & _ & _ & Hsplit)]; [done|].
    rewrite Hsplit at 2. rewrite append_length. lia.
  - split; [|apply baseName_no_extension].
    intros Hkeep base ext Hsplit.
    destruct ext as [|c ext]; [by left|right].
    destruct (noDot (String c ext)) eqn:Hdot; [|done].
    rewrite Hsplit, baseName_extension in Hkeep by done.
    apply (f_equal String.length) in Hkeep. rewrite append_length in Hkeep.
    cbn in Hkeep. lia.
Qed.

Lemma append_inj_l s t1 t2 : s +:+ t1 = s +:+ t2 -> t1 = t2.
Proof.
  induction s as [|c s IH]; [done|].
  rewrite !append_String. intros [= H]. by apply IH.
Qed.

(** X18. The file name computed for the result, [<baseName>_upscaled.<ext>],
    is never the input file name, whatever the names and the extension
    are. *)
Theorem output_file_name_is_new fileName fileExt :
  baseName fileName +:+ "_upscaled." +:+ fileExt <> fileName.
Proof.
  intros Hsame.
  destruct (baseName_shape fileName)
    as [Hkeep|(ext & _ & _ & Hsplit)].
  - rewrite Hkeep in Hsame. apply (f_equal String.length) in Hsame.
    rewrite !append_length in Hsame. cbn in Hsame. lia.
  - rewrite Hsplit in Hsame at 2. apply append_inj_l in Hsame. discriminate.
Qed.
